(** * run-big-bench.py: a shallow embedding of the benchmark driver

    The development follows [experiments/run-big-bench.py]: the ground-truth
    reader ([load_ground_truth]), the backend adapter ([train_index],
    [create_and_train_hnsw_index]), the metrics engine ([compute_metrics])
    and the sweep with its result store ([main], [run_experiment]).

    Conventions of the embedding:
    - Python exceptions are values of [exn]; a computation that can raise
      returns an [outcome].
    - Calls into hnswlib, flatnav, logging, the clock and the file system
      are effects: they are recorded, in order, in the [trace] of a [world]
      that every effectful function threads.
    - Python floats are modelled by exact rationals ([Q]); rounding is not
      modelled.
    - numpy's [uint32] scalars are integers with their wrap-around written
      out. *)

From Stdlib Require Import ZArith QArith Qround Lia Lqa List Bool Init.Byte.
From stdpp Require Import base option list strings gmap.

Set Warnings "-register-all".
Local Open Scope Z_scope.

(** ** Exceptions and results *)

Inductive exn :=
| ValueError (msg : string)
| RuntimeError (msg : string)
| IndexError
| ZeroDivisionError
| TypeError
| AttributeError
| KeyError (key : string)
| OverflowError (msg : string)
| UnicodeDecodeError
| RecursionError.

Inductive outcome (A : Type) :=
| Raised (e : exn)
| Returned (a : A).
Arguments Raised {A} e.
Arguments Returned {A} a.

Definition is_raised {A} (o : outcome A) : bool :=
  match o with Raised _ => true | Returned _ => false end.

(** ** Binary ground-truth files *)

Module GroundTruth.

(** [np.dtype(np.uint32).itemsize] and the size of a [float32]. *)
Definition itemsize : Z := 4.

Definition u32_modulus : Z := 2 ^ 32.

(** Little-endian value of a run of bytes. *)
Definition le_value (bs : list byte) : Z :=
  foldr (fun b acc => Z.of_N (Byte.to_N b) + 256 * acc) 0 bs.

(** [np.fromfile(f, dtype=np.uint32, count=1)[0]] with the file object at
    byte [pos]: fewer than four bytes left give an empty array, and
    indexing it raises. *)
Definition fromfile_u32 (data : list byte) (pos : nat) : outcome Z :=
  let bs := take 4 (drop pos data) in
  if (length bs =? 4)%nat then Returned (le_value bs) else Raised IndexError.

(** [uint32 * uint32] on numpy scalars stays in [uint32]. *)
Definition u32_mul (a b : Z) : Z := (a * b) mod u32_modulus.

Inductive dtype := Uint32 | Float32.

(** A read-only window on a file: what [np.memmap] hands back. *)
Record view := {
  view_dtype : dtype;
  view_offset : Z;
  view_rows : Z;
  view_cols : Z
}.

(** A result of 64-bit signed arithmetic (numpy's [intp], C's
    [npy_intp]), which wraps around. *)
Definition wrap64 (z : Z) : Z := (z + 2 ^ 63) mod 2 ^ 64 - 2 ^ 63.

(** [mmap.ALLOCATIONGRANULARITY]: the page size. *)
Definition ALLOCATIONGRANULARITY : Z := 4096.

(** [mmap.mmap(fileno, length, access=ACCESS_READ, offset=offset)] on a
    regular file of [flen] bytes, as the length of the mapping it makes:
    a negative length or offset is an [OverflowError], length [0] maps the
    rest of the file, and a range the file does not hold is refused. *)
Definition mmap (flen length offset : Z) : outcome Z :=
  if length <? 0
  then Raised (OverflowError "memory mapped length must be positive")
  else if offset <? 0
  then Raised (OverflowError "memory mapped offset must be positive")
  else if length =? 0 then
    if flen =? 0 then Raised (ValueError "cannot mmap an empty file")
    else if flen <=? offset
    then Raised (ValueError "mmap offset is greater than file size")
    else Returned (flen - offset)
  else if (flen <? offset) || (flen - offset <? length)
  then Raised (ValueError "mmap length is greater than file size")
  else Returned length.

(** [np.memmap(path, dtype, mode="r", shape=(rows, cols), offset)]. The
    element count [size] and the byte count are computed in 64-bit
    arithmetic; the file is mapped from the page boundary [start] below
    [offset]; the array is then laid over the mapping, which must hold it
    ([TypeError] otherwise) and whose byte size must fit 63 bits. No other
    check on the file length is made. *)
Definition memmap (flen : Z) (dt : dtype) (rows cols offset : Z)
  : outcome view :=
  let size := wrap64 (rows * cols) in
  let bytes := wrap64 (offset + wrap64 (size * itemsize)) in
  let start := offset - offset mod ALLOCATIONGRANULARITY in
  match mmap flen (bytes - start) start with
  | Raised e => Raised e
  | Returned buffer_len =>
    if buffer_len <? wrap64 (offset - start + wrap64 (itemsize * size))
    then Raised TypeError
    else if 2 ^ 63 <=? rows * cols * itemsize
    then Raised (ValueError "array is too big")
    else Returned {| view_dtype := dt; view_offset := offset;
                     view_rows := rows; view_cols := cols |}
  end.

(** Offset of the distance block as the source computes it:
    [8 + (num_queries * K * itemsize)]. The product of the two header
    scalars is a [uint32] product; the product with the Python integer
    [itemsize] and the sum are taken in a wider type. *)
Definition dists_offset (num_queries K : Z) : Z :=
  8 + u32_mul num_queries K * itemsize.

Definition load_ground_truth (data : list byte)
  : outcome (view * view * Z * Z) :=
  match fromfile_u32 data 0 with
  | Raised e => Raised e
  | Returned num_queries =>
    match fromfile_u32 data 4 with
    | Raised e => Raised e
    | Returned K =>
      let flen := Z.of_nat (length data) in
      match memmap flen Uint32 num_queries K 8 with
      | Raised e => Raised e
      | Returned ground_truth_ids =>
        match memmap flen Float32 num_queries K (dists_offset num_queries K) with
        | Raised e => Raised e
        | Returned ground_truth_dists =>
          Returned (ground_truth_ids, ground_truth_dists, num_queries, K)
        end
      end
    end
  end.

(** The layout the header declares: two header words, the id block and
    the distance block. *)
Definition declared_size (num_queries K : Z) : Z :=
  8 + 2 * (num_queries * K * itemsize).

(** A file is consistent with its header when its length is exactly the
    declared one. *)
Definition size_consistent (data : list byte) : Prop :=
  match fromfile_u32 data 0, fromfile_u32 data 4 with
  | Returned q, Returned k => Z.of_nat (length data) = declared_size q k
  | _, _ => False
  end.

(** Header [Q = 1], [K = 1], one id, one distance and one surplus byte. *)
Definition oversized_file : list byte :=
  [x01; x00; x00; x00;  x01; x00; x00; x00;
   x07; x00; x00; x00;  x00; x00; x80; x3f;
   xff].

End GroundTruth.

(** ** Python values: dictionaries and JSON documents *)

(** What [json.load] returns and [json.dump] accepts. Objects keep their
    insertion order, as Python dictionaries do. *)
Inductive json :=
| JNull
| JBool (b : bool)
| JNum (q : Q)
| JStr (s : string)
| JArr (items : list json)
| JObj (fields : list (string * json)).

Definition pydict : Type := list (string * json).

Module Dict.

(** [d[key]] read. *)
Fixpoint get (key : string) (d : pydict) : option json :=
  match d with
  | [] => None
  | (k, v) :: rest => if bool_decide (k = key) then Some v else get key rest
  end.

(** [key in d]. *)
Definition has (key : string) (d : pydict) : bool :=
  match get key d with Some _ => true | None => false end.

(** [d[key] = v]: an existing key keeps its place, a new one goes last. *)
Fixpoint set (key : string) (v : json) (d : pydict) : pydict :=
  match d with
  | [] => [(key, v)]
  | (k, old) :: rest =>
    if bool_decide (k = key) then (k, v) :: rest
    else (k, old) :: set key v rest
  end.

Definition keys (d : pydict) : list string := map fst d.

End Dict.

(** ** The world the driver runs in *)

Definition vec : Type := list Q.

(** A two-dimensional array with its declared second dimension
    ([shape[1]] is defined for an array without rows too). *)
Record ndarray := {
  array_rows : list vec;
  array_dim : Z
}.

Inductive index_class := L2Index | IPIndex | HnswlibIndex.

(** What is known of a built index: its class and the parameters the
    libraries were given. *)
Record index := {
  index_kind : index_class;
  index_space : string;
  index_dim : Z;
  index_max_edges : option Z;
  index_ef_construction : option Z;
  index_mtx_filename : option string;
  index_order : list string
}.

Inductive log_message :=
| Msg_indexing_time (seconds : Q)
| Msg_building (index_type : string)
| Msg_recall (recall qps latency : json) (node_links ef_cons ef_search : Z)
| Msg_error_reading (metrics_file : string).

(** The calls the driver issues, in the libraries' own names. *)
Inductive event :=
| Hnswlib_Index (space : string) (dim : Z)
| Hnsw_init_index (max_elements ef_construction M : Z)
| Hnsw_set_num_threads (n : Z)
| Hnsw_add_items (count : Z)
| Hnsw_save_base_layer_graph (filename : string)
| Hnsw_set_ef (ef : Z)
| Hnsw_knn_query (query : vec) (k : Z)
| Flatnav_index_factory (distance_type : string) (dim : Z)
    (dataset_size max_edges_per_node : option Z) (mtx_filename : option string)
| Flatnav_allocate_nodes
| Flatnav_build_graph_links
| Flatnav_set_num_threads (n : Z)
| Flatnav_add (ef_construction num_initializations : Z)
| Flatnav_reorder (strategies : list string)
| Flatnav_search_single (query : vec) (ef_search K num_initializations : Z)
| Logging_info (msg : log_message)
| Logging_error (msg : log_message).

(** A file is seen by the driver only through [os.path.exists],
    [os.path.getsize], [json.load] and [json.dump] (and, for the base
    layer, through the libraries), so its content is kept as what those
    make of it: text that is not JSON ([Unparsable], on which [json.load]
    raises [json.JSONDecodeError]), content on which reading or parsing
    raises another exception [e] ([Unloadable]: bytes that are no text in
    the file's encoding give [UnicodeDecodeError], nesting beyond the
    recursion limit gives [RecursionError]), a JSON document, or an
    exported base layer. *)
Inductive file_data :=
| Unparsable (size : N)
| Unloadable (size : N) (e : exn)
| Document (v : json)
| MatrixMarket (of_index : index).

Record world := {
  trace : list event;
  files : gmap string file_data;
  ticks : nat
}.

(** The collaborators whose answers the driver only consumes: the wall
    clock ([time.time()], by number of the reading) and the two search
    calls. *)
Record backend := {
  clock : nat -> Q;
  search_single : index -> vec -> Z -> Z -> Z -> list Z;
  knn_query : index -> Z -> vec -> Z -> list Z
}.

(** ** A state and exception monad *)

Definition M (A : Type) : Type := world -> world * outcome A.

Definition ret {A} (a : A) : M A := fun w => (w, Returned a).

Definition raise {A} (e : exn) : M A := fun w => (w, Raised e).

Definition bind {A B} (c : M A) (k : A -> M B) : M B :=
  fun w =>
    match c w with
    | (w', Raised e) => (w', Raised e)
    | (w', Returned a) => k a w'
    end.

Notation "'let*' x ':=' c 'in' k" := (bind c (fun x => k))
  (at level 10, x pattern, c at level 100, k at level 200).

Definition lift {A} (o : outcome A) : M A := fun w => (w, o).

Definition emit (e : event) : M unit :=
  fun w => ({| trace := trace w ++ [e]; files := files w; ticks := ticks w |},
            Returned tt).

Definition read_file (path : string) : M (option file_data) :=
  fun w => (w, Returned (files w !! path)).

Definition write_file (path : string) (d : file_data) : M unit :=
  fun w => ({| trace := trace w; files := <[path := d]> (files w);
               ticks := ticks w |}, Returned tt).

(** [for x in xs: ...] with the variables the body rebinds carried in [s]. *)
Fixpoint for_each {A S} (xs : list A) (body : A -> S -> M S) (s : S) : M S :=
  match xs with
  | [] => ret s
  | x :: rest => let* s' := body x s in for_each rest body s'
  end.

(** ** Arithmetic on Python floats *)

Definition qsum (l : list Q) : Q := foldr Qplus 0%Q l.

(** [a / b] on floats. *)
Definition truediv (a b : Q) : outcome Q :=
  if Qeq_bool b 0 then Raised ZeroDivisionError else Returned (a / b)%Q.

Module Numpy.

(** [np.mean] of a non-empty sequence. *)
Definition mean (l : list Q) : Q := (qsum l / inject_Z (Z.of_nat (length l)))%Q.

Fixpoint insert_sorted (x : Q) (l : list Q) : list Q :=
  match l with
  | [] => [x]
  | y :: rest => if Qle_bool x y then x :: l else y :: insert_sorted x rest
  end.

Definition sort (l : list Q) : list Q := foldr insert_sorted [] l.

(** [np.percentile(l, q)] with the default linear interpolation: the
    value at the virtual index [(n-1) * q/100] of the sorted data. *)
Definition percentile (l : list Q) (q : Q) : Q :=
  let a := sort l in
  let n := Z.of_nat (length a) in
  let virtual := (inject_Z (n - 1) * (q / 100))%Q in
  let lo := Qfloor virtual in
  let hi := Z.min (lo + 1) (n - 1) in
  let gamma := (virtual - inject_Z lo)%Q in
  let at_ (i : Z) := nth (Z.to_nat i) a 0%Q in
  (at_ lo + gamma * (at_ hi - at_ lo))%Q.

(** [np.stack] of the per-query result rows; an empty list is refused. *)
Definition stack (rows : list (list Z)) : outcome (list (list Z)) :=
  match rows with
  | [] => Raised (ValueError "need at least one array to stack")
  | _ => Returned rows
  end.

End Numpy.

(** ** The driver *)

Section Driver.

Context (env : backend).

(** [time.time()]: the next reading of the clock. *)
Definition time_time : M Q :=
  fun w => ({| trace := trace w; files := files w; ticks := S (ticks w) |},
            Returned (clock env (ticks w))).

Definition is_flatnav (ix : index) : bool :=
  match index_kind ix with
  | L2Index | IPIndex => true
  | HnswlibIndex => false
  end.

(** *** compute_metrics *)

(** [index.search_single(query, ef_search, K, num_initializations)],
    of which the driver keeps the ids. *)
Definition call_search_single (ix : index) (query : vec)
    (ef_search K num_initializations : Z) : M (list Z) :=
  let* _ := emit (Flatnav_search_single query ef_search K num_initializations) in
  ret (search_single env ix query ef_search K num_initializations).

(** [index.knn_query(data=np.array([query]), k=k)] on an index whose
    search width was last set to [ef]; the driver keeps [indices[0]]. *)
Definition call_knn_query (ix : index) (ef : Z) (query : vec) (k : Z)
  : M (list Z) :=
  let* _ := emit (Hnsw_knn_query query k) in
  ret (knn_query env ix ef query k).

(** The per-query loop on a flatnav index (source lines 149-159). *)
Definition search_loop_flatnav (ix : index) (queries : list vec)
    (ef_search k : Z) : M (list Q * list (list Z)) :=
  for_each queries
    (fun query '(latencies, top_k_indices) =>
       let* start := time_time in
       let* indices := call_search_single ix query ef_search k 100 in
       let* end_ := time_time in
       ret (latencies ++ [(end_ - start)%Q], top_k_indices ++ [indices]))
    ([], []).

(** The per-query loop on an hnswlib index (source lines 161-167). *)
Definition search_loop_hnsw (ix : index) (queries : list vec)
    (ef_search k : Z) : M (list Q * list (list Z)) :=
  let* _ := emit (Hnsw_set_ef ef_search) in
  for_each queries
    (fun query '(latencies, top_k_indices) =>
       let* start := time_time in
       let* indices := call_knn_query ix ef_search query k in
       let* end_ := time_time in
       ret (latencies ++ [(end_ - start)%Q], top_k_indices ++ [indices]))
    ([], []).

(** [if name in requested_metrics: metrics[name] = value]. *)
Definition when_requested (requested_metrics : list string) (name : string)
    (value : outcome Q) (metrics : pydict) : outcome pydict :=
  if bool_decide (name ∈ requested_metrics) then
    match value with
    | Raised e => Raised e
    | Returned v => Returned (Dict.set name (JNum v) metrics)
    end
  else Returned metrics.

(** [sum(1 for neighbor in k_neighbors if neighbor in ground_truth_sets[idx])]:
    the set is looked up once per neighbour, so a missing row raises only
    when there is a neighbour to test. *)
Definition query_hits (ground_truth_sets : list (gset Z)) (idx : nat)
    (k_neighbors : list Z) : outcome Z :=
  match k_neighbors with
  | [] => Returned 0
  | _ :: _ =>
    match ground_truth_sets !! idx with
    | None => Raised IndexError
    | Some s =>
      Returned (Z.of_nat (length (filter (fun neighbor => neighbor ∈ s) k_neighbors)))
    end
  end.

(** The recall loop (source lines 195-201): [mean_recall] after the rows
    from [idx] on have been added. *)
Fixpoint recall_loop (ground_truth_sets : list (gset Z)) (k : Z) (idx : nat)
    (rows : list (list Z)) (mean_recall : Q) : outcome Q :=
  match rows with
  | [] => Returned mean_recall
  | k_neighbors :: rest =>
    match query_hits ground_truth_sets idx k_neighbors with
    | Raised e => Raised e
    | Returned query_recall =>
      match truediv (inject_Z query_recall) (inject_Z k) with
      | Raised e => Raised e
      | Returned r =>
        recall_loop ground_truth_sets k (S idx) rest (mean_recall + r)%Q
      end
    end
  end.

(** The scoring that follows the searches (source lines 169-206). *)
Definition score (requested_metrics : list string) (num_queries : nat)
    (ground_truth : list (list Z)) (k : Z)
    (latencies : list Q) (top_k_indices : list (list Z)) : outcome pydict :=
  if negb (forallb (fun indices => Z.of_nat (length indices) =? k) top_k_indices)
  then Raised (RuntimeError "Not all queries returned the same number of results.")
  else
    match Numpy.stack top_k_indices with
    | Raised e => Raised e
    | Returned top_k_indices =>
      let querying_time := qsum latencies in
      let metrics : pydict := [] in
      match when_requested requested_metrics "qps"
              (truediv (inject_Z (Z.of_nat num_queries)) querying_time) metrics with
      | Raised e => Raised e
      | Returned metrics =>
      match when_requested requested_metrics "latency"
              (Returned (Numpy.mean latencies * 1000)%Q) metrics with
      | Raised e => Raised e
      | Returned metrics =>
      match when_requested requested_metrics "latency_p95"
              (Returned (Numpy.percentile latencies 95 * 1000)%Q) metrics with
      | Raised e => Raised e
      | Returned metrics =>
      match when_requested requested_metrics "latency_p99"
              (Returned (Numpy.percentile latencies 99 * 1000)%Q) metrics with
      | Raised e => Raised e
      | Returned metrics =>
      match when_requested requested_metrics "latency_p999"
              (Returned (Numpy.percentile latencies (999 # 10) * 1000)%Q) metrics with
      | Raised e => Raised e
      | Returned metrics =>
        let ground_truth_sets := map list_to_set ground_truth in
        match recall_loop ground_truth_sets k 0 top_k_indices 0%Q with
        | Raised e => Raised e
        | Returned mean_recall =>
          match truediv mean_recall (inject_Z (Z.of_nat num_queries)) with
          | Raised e => Raised e
          | Returned recall => Returned (Dict.set "recall" (JNum recall) metrics)
          end
        end
      end end end end end
    end.

Definition compute_metrics (requested_metrics : list string) (ix : index)
    (queries : list vec) (ground_truth : list (list Z)) (ef_search k : Z)
  : M pydict :=
  let* (latencies, top_k_indices) :=
    (if is_flatnav ix then search_loop_flatnav ix queries ef_search k
     else search_loop_hnsw ix queries ef_search k) in
  lift (score requested_metrics (length queries) ground_truth k
          latencies top_k_indices).

End Driver.

Section Sweep.

Context (env : backend).

(** *** create_and_train_hnsw_index *)

Definition create_and_train_hnsw_index (data : ndarray) (space : string)
    (dim dataset_size ef_construction max_edges_per_node num_threads : Z)
  : M index :=
  let* _ := emit (Hnswlib_Index space dim) in
  let* _ := emit (Hnsw_init_index dataset_size ef_construction max_edges_per_node) in
  let* _ := emit (Hnsw_set_num_threads num_threads) in
  let* start := time_time env in
  let* _ := emit (Hnsw_add_items dataset_size) in
  let* end_ := time_time env in
  let* _ := emit (Logging_info (Msg_indexing_time (end_ - start)%Q)) in
  ret {| index_kind := HnswlibIndex; index_space := space; index_dim := dim;
         index_max_edges := Some max_edges_per_node;
         index_ef_construction := Some ef_construction;
         index_mtx_filename := None; index_order := [] |}.

(** Modelled from the spec: [flatnav.index.index_factory] belongs to the
    library's Python binding, which is not part of the driver's file. It
    hands back an [L2Index] for the euclidean distance and an [IPIndex]
    for the inner-product one. *)
Definition index_factory (distance_type : string) (dim : Z)
    (dataset_size max_edges_per_node : option Z) (mtx_filename : option string)
  : M index :=
  let* _ := emit (Flatnav_index_factory distance_type dim dataset_size
                    max_edges_per_node mtx_filename) in
  ret {| index_kind := if bool_decide (distance_type = "l2") then L2Index else IPIndex;
         index_space := distance_type; index_dim := dim;
         index_max_edges := max_edges_per_node;
         index_ef_construction := None;
         index_mtx_filename := mtx_filename; index_order := [] |}.

(** Truth value of an optional string: [None] and [""] are false. *)
Definition truthy (s : option string) : option string :=
  match s with
  | Some "" => None
  | other => other
  end.

(** The name hnswlib knows the distance by (source lines 246 and 265). *)
Definition hnsw_space (distance_type : string) : string :=
  if bool_decide (distance_type = "l2") then distance_type else "ip".

(** *** train_index *)

Definition train_index (train_dataset : ndarray) (distance_type : string)
    (dim dataset_size max_edges_per_node ef_construction : Z)
    (index_type : string) (use_hnsw_base_layer : bool)
    (hnsw_base_layer_filename : option string) (num_build_threads : Z)
  : M index :=
  if bool_decide (index_type = "hnsw") then
    let _distance_type := hnsw_space distance_type in
    create_and_train_hnsw_index train_dataset _distance_type dim dataset_size
      ef_construction (max_edges_per_node / 2) num_build_threads
  else if use_hnsw_base_layer then
    match truthy hnsw_base_layer_filename with
    | None =>
      raise (ValueError "Must provide a filename for the HNSW base layer graph.")
    | Some filename =>
      let _distance_type := hnsw_space distance_type in
      let* hnsw_index :=
        create_and_train_hnsw_index train_dataset _distance_type dim
          dataset_size ef_construction (max_edges_per_node / 2)
          num_build_threads in
      let* _ := emit (Hnsw_save_base_layer_graph filename) in
      let* _ := write_file filename (MatrixMarket hnsw_index) in
      let* ix := index_factory distance_type dim None None (Some filename) in
      let* _ := emit Flatnav_allocate_nodes in
      let* _ := emit Flatnav_build_graph_links in
      ret ix
    end
  else
    let* ix := index_factory distance_type dim (Some dataset_size)
                 (Some max_edges_per_node) None in
    let* _ := emit (Flatnav_set_num_threads num_build_threads) in
    let* start := time_time env in
    let* _ := emit (Flatnav_add ef_construction 100) in
    let* end_ := time_time env in
    let* _ := emit (Logging_info (Msg_indexing_time (end_ - start)%Q)) in
    ret {| index_kind := index_kind ix; index_space := index_space ix;
           index_dim := index_dim ix; index_max_edges := index_max_edges ix;
           index_ef_construction := Some ef_construction;
           index_mtx_filename := index_mtx_filename ix;
           index_order := index_order ix |}.

(** *** The result store *)

(** [os.path.getsize(path) > 0]. *)
Definition nonempty (d : file_data) : bool :=
  match d with
  | Unparsable size | Unloadable size _ => (0 <? size)%N
  | Document _ | MatrixMarket _ => true
  end.

(** What [json.load(file)] does on a file opened in text mode: it returns
    a value, raises [json.JSONDecodeError], or raises something else. *)
Inductive loaded_json :=
| Parsed (v : json)
| Rejected
| Failed (e : exn).

Definition json_load (d : file_data) : loaded_json :=
  match d with
  | Document v => Parsed v
  | Unparsable _ | MatrixMarket _ => Rejected
  | Unloadable _ e => Failed e
  end.

(** Source lines 396-399: [if index_type not in all_metrics:
    all_metrics[index_type] = []] and
    [all_metrics[index_type].append(metrics)], on whatever value
    [json.load] produced. *)
Definition append_record (index_type : string) (metrics : pydict)
    (all_metrics : json) : outcome json :=
  match all_metrics with
  | JObj fields =>
    let fields :=
      if Dict.has index_type fields then fields
      else Dict.set index_type (JArr []) fields in
    match Dict.get index_type fields with
    | Some (JArr records) =>
      Returned (JObj (Dict.set index_type (JArr (records ++ [JObj metrics])) fields))
    | Some _ => Raised AttributeError
    | None => Raised (KeyError index_type)
    end
  | _ => Raised TypeError
  end.

(** Source lines 387-394: the store as read for one write. Only
    [json.JSONDecodeError] is caught. *)
Definition load_store (metrics_file index_type : string) : M json :=
  let all_metrics := JObj [(index_type, JArr [])] in
  let* existing := read_file metrics_file in
  match existing with
  | Some d =>
    if nonempty d then
      match json_load d with
      | Parsed v => ret v
      | Rejected =>
        let* _ := emit (Logging_error (Msg_error_reading metrics_file)) in
        ret all_metrics
      | Failed e => raise e
      end
    else ret all_metrics
  | None => ret all_metrics
  end.

(** Source lines 387-401. *)
Definition persist (metrics_file index_type : string) (metrics : pydict)
  : M unit :=
  let* all_metrics := load_store metrics_file index_type in
  let* all_metrics := lift (append_record index_type metrics all_metrics) in
  write_file metrics_file (Document all_metrics).

(** *** main *)

Definition all_metric_names : list string :=
  ["recall"; "qps"; "latency"; "latency_p95"; "latency_p99"; "latency_p999"].

(** [metrics[key]] in the log line. *)
Definition item (metrics : pydict) (key : string) : M json :=
  match Dict.get key metrics with
  | Some v => ret v
  | None => raise (KeyError key)
  end.

(** [index.reorder(strategies=...)]. *)
Definition reorder (ix : index) (strategies : list string) : M index :=
  let* _ := emit (Flatnav_reorder strategies) in
  ret {| index_kind := index_kind ix; index_space := index_space ix;
         index_dim := index_dim ix; index_max_edges := index_max_edges ix;
         index_ef_construction := index_ef_construction ix;
         index_mtx_filename := index_mtx_filename ix;
         index_order := index_order ix ++ strategies |}.

(** [index.set_num_threads(n)] on either class of index. *)
Definition set_num_threads (ix : index) (n : Z) : M unit :=
  emit (if is_flatnav ix then Flatnav_set_num_threads n
        else Hnsw_set_num_threads n).

(** The body of [for ef_search in ef_search_params] (source lines
    365-401). The variable [metrics] is rebound to the dictionary
    [compute_metrics] returns. *)
Definition search_step (ix : index) (queries : list vec)
    (gtruth : list (list Z)) (distance_type metrics_file index_type : string)
    (node_links ef_cons : Z) (ef_search : Z) (metrics : pydict) : M pydict :=
  let* metrics :=
    compute_metrics env all_metric_names ix queries gtruth ef_search 100 in
  let* recall := item metrics "recall" in
  let* qps := item metrics "qps" in
  let* latency := item metrics "latency" in
  let* _ := emit (Logging_info
                    (Msg_recall recall qps latency node_links ef_cons ef_search)) in
  let metrics := Dict.set "distance_type" (JStr distance_type) metrics in
  let* _ := persist metrics_file index_type metrics in
  ret metrics.

(** The body of [for ef_cons in ef_cons_params] (source lines 339-401). *)
Definition build_step (train_dataset : ndarray) (queries : list vec)
    (gtruth : list (list Z)) (ef_search_params : list Z)
    (distance_type metrics_file index_type : string)
    (use_hnsw_base_layer : bool) (hnsw_base_layer_filename : option string)
    (reordering_strategies : option (list string))
    (num_build_threads num_search_threads : Z)
    (node_links : Z) (ef_cons : Z) (metrics : pydict) : M pydict :=
  let dataset_size := Z.of_nat (length (array_rows train_dataset)) in
  let dim := array_dim train_dataset in
  let metrics := Dict.set "ef_construction" (JNum (inject_Z ef_cons)) metrics in
  let* _ := emit (Logging_info (Msg_building index_type)) in
  let* ix := train_index train_dataset distance_type dim dataset_size
               node_links ef_cons index_type use_hnsw_base_layer
               hnsw_base_layer_filename num_build_threads in
  let* ix :=
    match reordering_strategies with
    | Some strategies =>
      if negb (is_flatnav ix)
      then raise (ValueError "Reordering only applies to the FlatNav index.")
      else reorder ix strategies
    | None => ret ix
    end in
  let* _ := set_num_threads ix num_search_threads in
  for_each ef_search_params
    (search_step ix queries gtruth distance_type metrics_file index_type
       node_links ef_cons)
    metrics.

Definition main (train_dataset : ndarray) (queries : list vec)
    (gtruth : list (list Z)) (ef_cons_params ef_search_params num_node_links : list Z)
    (distance_type metrics_file index_type : string)
    (use_hnsw_base_layer : bool) (hnsw_base_layer_filename : option string)
    (reordering_strategies : option (list string))
    (num_initializations : option (list Z))
    (num_build_threads num_search_threads : Z) : M unit :=
  let metrics : pydict := [] in
  let* _ :=
    for_each num_node_links
      (fun node_links metrics =>
         let metrics := Dict.set "node_links" (JNum (inject_Z node_links)) metrics in
         for_each ef_cons_params
           (build_step train_dataset queries gtruth ef_search_params
              distance_type metrics_file index_type use_hnsw_base_layer
              hnsw_base_layer_filename reordering_strategies
              num_build_threads num_search_threads node_links)
           metrics)
      metrics in
  ret tt.

(** *** run_experiment *)

(** The parsed command line, as far as the sweep reads it. *)
Record arguments := {
  arg_index_type : string;
  arg_use_hnsw_base_layer : bool;
  arg_hnsw_base_layer_filename : option string;
  arg_num_node_links : list Z;
  arg_ef_construction : list Z;
  arg_ef_search : list Z;
  arg_num_initializations : option (list Z);
  arg_metric : string;
  arg_reordering_strategies : option (list string);
  arg_num_build_threads : Z;
  arg_num_search_threads : Z;
  arg_metrics_file : string
}.

(** [str.lower] on ASCII text. *)
Definition lower_ascii (c : Ascii.ascii) : Ascii.ascii :=
  let n := Ascii.nat_of_ascii c in
  if ((65 <=? n) && (n <=? 90))%nat then Ascii.ascii_of_nat (n + 32) else c.

Fixpoint lower (s : string) : string :=
  match s with
  | EmptyString => EmptyString
  | String c rest => String (lower_ascii c) (lower rest)
  end.

(** [os.path.join("/root", "metrics", name)]: an absolute [name] replaces
    what precedes it. *)
Definition metrics_path (name : string) : string :=
  match name with
  | String c _ =>
    if bool_decide (c = Ascii.ascii_of_nat 47) then name
    else "/root/metrics/" ++ name
  | EmptyString => "/root/metrics/"
  end.

(** [run_experiment] from the loaded datasets to the end of the sweep
    (source lines 535-558); reading the command line, loading the
    datasets and plotting are left to their own components. *)
Definition run_experiment (args : arguments) (train_data : ndarray)
    (queries : list vec) (ground_truth : list (list Z)) : M unit :=
  let num_initializations := arg_num_initializations args in
  let* _ :=
    (if bool_decide (lower (arg_index_type args) = "hnsw") then
       match num_initializations with
       | Some _ => raise (ValueError "HNSW does not support num_initializations.")
       | None => ret tt
       end
     else ret tt) in
  let metrics_file_path := metrics_path (arg_metrics_file args) in
  main train_data queries ground_truth
    (arg_ef_construction args) (arg_ef_search args) (arg_num_node_links args)
    (lower (arg_metric args)) metrics_file_path (lower (arg_index_type args))
    (arg_use_hnsw_base_layer args) (arg_hnsw_base_layer_filename args)
    (arg_reordering_strategies args) num_initializations
    (arg_num_build_threads args) (arg_num_search_threads args).

End Sweep.

(** ** What a scoring call observes *)

Section Observations.

Context (env : backend).

(** The ids each search hands back, query by query. *)
Definition answers (ix : index) (queries : list vec) (ef_search k : Z)
  : list (list Z) :=
  if is_flatnav ix
  then map (fun query => search_single env ix query ef_search k 100) queries
  else map (fun query => knn_query env ix ef_search query k) queries.

(** The calls a scoring call issues. *)
Definition search_events (ix : index) (queries : list vec) (ef_search k : Z)
  : list event :=
  if is_flatnav ix
  then map (fun query => Flatnav_search_single query ef_search k 100) queries
  else Hnsw_set_ef ef_search :: map (fun query => Hnsw_knn_query query k) queries.

(** The durations of [n] searches timed from clock reading [t] on. *)
Fixpoint durations (t n : nat) : list Q :=
  match n with
  | O => []
  | S n' => (clock env (S t) - clock env t)%Q :: durations (S (S t)) n'
  end.

End Observations.

(** ** Recall as the specification words it *)

(** The fraction of the returned ids that are members of the query's
    ground-truth ids. *)
Definition spec_query_recall (returned truth : list Z) : Q :=
  (inject_Z (Z.of_nat (length (filter (fun id => id ∈ truth) returned)))
   / inject_Z (Z.of_nat (length returned)))%Q.

(** The per-query fractions averaged uniformly over the queries. *)
Definition spec_recall (results truths : list (list Z)) : Q :=
  (qsum (zip_with spec_query_recall results truths)
   / inject_Z (Z.of_nat (length results)))%Q.

(** One timing metric of a record, present when it was asked for. *)
Definition entry_if (requested : list string) (name : string) (value : Q)
  : pydict :=
  if bool_decide (name ∈ requested) then [(name, JNum value)] else [].

(** The timing metrics of a record, in the order the source tests them. *)
Definition timing_metrics (requested : list string) (num_queries : nat)
    (latencies : list Q) : pydict :=
  entry_if requested "qps" (inject_Z (Z.of_nat num_queries) / qsum latencies)%Q
  ++ entry_if requested "latency" (Numpy.mean latencies * 1000)%Q
  ++ entry_if requested "latency_p95" (Numpy.percentile latencies 95 * 1000)%Q
  ++ entry_if requested "latency_p99" (Numpy.percentile latencies 99 * 1000)%Q
  ++ entry_if requested "latency_p999"
       (Numpy.percentile latencies (999 # 10) * 1000)%Q.

(** [e] is not a flatnav search, or it is one with 100 initializations. *)
Definition searches_with_100 (e : event) : Prop :=
  match e with
  | Flatnav_search_single _ _ _ num_initializations => num_initializations = 100
  | _ => True
  end.

(** Running [c] only adds events that satisfy [P] to the trace. *)
Definition emits {A} (P : event -> Prop) (c : M A) : Prop :=
  forall w, exists new, trace (fst (c w)) = trace w ++ new /\ Forall P new.

(** [e] is one of the calls that build an index. *)
Definition is_build_call (e : event) : bool :=
  match e with
  | Hnswlib_Index _ _ | Hnsw_init_index _ _ _ | Hnsw_add_items _
  | Flatnav_index_factory _ _ _ _ _ | Flatnav_add _ _
  | Flatnav_allocate_nodes | Flatnav_build_graph_links => true
  | _ => false
  end.

(** ** Sample runs *)

Module Sample.

(** A backend that answers every search with the ids [0 .. k-1] and whose
    clock advances one millisecond per reading. *)
Definition exact : backend := {|
  clock := fun n => (inject_Z (Z.of_nat n) / 1000)%Q;
  search_single := fun _ _ _ K _ => map Z.of_nat (seq 0 (Z.to_nat K));
  knn_query := fun _ _ _ k => map Z.of_nat (seq 0 (Z.to_nat k))
|}.

(** A clock that stands still. *)
Definition frozen : backend := {|
  clock := fun _ => 0%Q;
  search_single := search_single exact;
  knn_query := knn_query exact
|}.

Definition start : world := {| trace := []; files := ∅; ticks := 0 |}.

Definition train : ndarray :=
  {| array_rows := [[1%Q]; [2%Q]; [3%Q]]; array_dim := 1 |}.

Definition queries : list vec := [[1%Q]; [2%Q]].

(** The first query's answer is all true neighbours, half of the
    second's is. *)
Definition gtruth : list (list Z) :=
  [map Z.of_nat (seq 0 100); map Z.of_nat (seq 50 100)].

Definition small_gtruth : list (list Z) := [[0; 1; 2; 3]; [2; 3; 4; 5]].

Definition flat_index : index :=
  {| index_kind := L2Index; index_space := "l2"; index_dim := 1;
     index_max_edges := Some 16; index_ef_construction := Some 100;
     index_mtx_filename := None; index_order := [] |}.

(** A store file holding text that is not JSON. *)
Definition corrupted : world :=
  {| trace := []; files := {[ "m.json" := Unparsable 12 ]}; ticks := 0 |}.

(** A store file whose bytes are no text in the file's encoding. *)
Definition undecodable : world :=
  {| trace := [];
     files := {[ "m.json" := Unloadable 12 UnicodeDecodeError ]};
     ticks := 0 |}.

(** A header that declares 4294967295 queries of 4294967295 neighbours. *)
Definition huge_header_file : list byte :=
  [xff; xff; xff; xff;  xff; xff; xff; xff;
   x00; x00; x00; x00;  x00; x00; x00; x00].

(** Header [Q = 1], [K = 1] and the id block only. *)
Definition truncated_file : list byte :=
  [x01; x00; x00; x00;  x01; x00; x00; x00;
   x07; x00; x00; x00].

End Sample.

(** ** The dataset loader *)

Module Dataset.

Inductive dtype := Uint8 | Float32 | Int32.

(** [np.dtype(dt).itemsize]. *)
Definition itemsize (dt : dtype) : Z :=
  match dt with
  | Uint8 => 1
  | Float32 | Int32 => 4
  end.

(** [s.endswith(suffix)]. *)
Definition endswith (s suffix : string) : bool :=
  let n := String.length s in
  let m := String.length suffix in
  (m <=? n)%nat && bool_decide (String.substring (n - m) m s = suffix).

(** A loaded array: its element type, its two dimensions and the bytes of
    its elements, row by row. *)
Record array := {
  a_dtype : dtype;
  a_rows : Z;
  a_cols : Z;
  a_data : list byte
}.

(** Source lines 36-39: the first path that does not exist is reported. *)
Fixpoint verify_paths_exist (fs : gmap string (list byte)) (paths : list string)
  : outcome unit :=
  match paths with
  | [] => Returned tt
  | path :: rest =>
    match fs !! path with
    | None => Raised (ValueError ("Invalid file path: " ++ path))
    | Some _ => verify_paths_exist fs rest
    end
  end.

(** [np.fromfile(path, dtype=dt, offset=offset)]: the whole items that
    follow [offset]; the item count is the C quotient of the bytes left by
    the item size, and a negative count is refused. *)
Definition fromfile (data : list byte) (dt : dtype) (offset : Z)
  : outcome (list byte) :=
  let num := Z.quot (Z.of_nat (length data) - offset) (itemsize dt) in
  if num <? 0 then Raised (ValueError "negative dimensions are not allowed")
  else Returned (take (Z.to_nat (num * itemsize dt))
                   (drop (Z.to_nat offset) data)).

(** [items.reshape((rows, cols))] on a flat array given by its bytes. *)
Definition reshape (items : list byte) (dt : dtype) (rows cols : Z)
  : outcome array :=
  if Z.of_nat (length items) =? rows * cols * itemsize dt
  then Returned {| a_dtype := dt; a_rows := rows; a_cols := cols;
                   a_data := items |}
  else Raised (ValueError "cannot reshape array").

(** [np.memmap(path, dtype=dt, mode="r", shape=(count,), offset=offset)],
    as the bytes it maps: mapping more than the file holds is refused. *)
Definition memmap_flat (data : list byte) (dt : dtype) (count offset : Z)
  : outcome (list byte) :=
  if Z.of_nat (length data) <? offset + count * itemsize dt
  then Raised (ValueError "mmap length is greater than file size")
  else Returned (take (Z.to_nat (count * itemsize dt))
                   (drop (Z.to_nat offset) data)).

(** The element type a raw file is read with (source lines 86 and 112). *)
Definition dtype_of_path (path : string) : dtype :=
  if endswith path "fbin" then Float32 else Uint8.

(** What the loader hands back: three arrays from the [npy] loader, or the
    train and query arrays with the view on the ground-truth ids. *)
Inductive loaded (npy : Type) :=
| From_npy (train queries gtruth : npy)
| From_binary (train queries : array) (gtruth : GroundTruth.view).
Arguments From_npy {npy} train queries gtruth.
Arguments From_binary {npy} train queries gtruth.

Section Loader.

(** [np.load(path).astype(dt, copy=False)] on the content of a file. *)
Context {npy : Type} (np_load : dtype -> list byte -> outcome npy).

(** Source lines 94-107: the train array, whole or its first
    [chunk_size] rows. A chunk size is a count; [None] and [0] are
    false. *)
Definition load_train (data : list byte) (train_dtype : dtype)
    (num_points num_dimensions : Z) (chunk_size : option N) : outcome array :=
  let total_size := Z.of_nat (length data) / itemsize train_dtype in
  match chunk_size with
  | Some (Npos c) =>
    let chunk := Z.pos c in
    let bytes_to_load := chunk * num_dimensions * itemsize train_dtype in
    match memmap_flat data train_dtype (total_size - 2) 8 with
    | Raised e => Raised e
    | Returned mapped =>
      let sliced :=
        take (Z.to_nat (bytes_to_load / itemsize train_dtype * itemsize train_dtype))
          mapped in
      reshape sliced train_dtype chunk num_dimensions
    end
  | _ =>
    match fromfile data train_dtype 8 with
    | Raised e => Raised e
    | Returned items => reshape items train_dtype num_points num_dimensions
    end
  end.

Definition load_benchmark_dataset (fs : gmap string (list byte))
    (train_dataset_path queries_path gtruth_path : string)
    (chunk_size : option N) : outcome (loaded npy) :=
  let paths := [train_dataset_path; queries_path; gtruth_path] in
  match verify_paths_exist fs paths with
  | Raised e => Raised e
  | Returned _ =>
    let content path := default [] (fs !! path) in
    if forallb (fun dataset => endswith dataset "npy") paths then
      match np_load Float32 (content train_dataset_path) with
      | Raised e => Raised e
      | Returned train =>
        match np_load Float32 (content queries_path) with
        | Raised e => Raised e
        | Returned queries =>
          match np_load Int32 (content gtruth_path) with
          | Raised e => Raised e
          | Returned gtruth => Returned (From_npy train queries gtruth)
          end
        end
      end
    else
      let train_dtype := dtype_of_path train_dataset_path in
      let train_data := content train_dataset_path in
      match GroundTruth.fromfile_u32 train_data 0 with
      | Raised e => Raised e
      | Returned num_points =>
        match GroundTruth.fromfile_u32 train_data 4 with
        | Raised e => Raised e
        | Returned num_dimensions =>
          match load_train train_data train_dtype num_points num_dimensions
                  chunk_size with
          | Raised e => Raised e
          | Returned train_dataset =>
            match GroundTruth.load_ground_truth (content gtruth_path) with
            | Raised e => Raised e
            | Returned (gtruth_dataset, _, num_queries, _) =>
              let queries_dtype := dtype_of_path queries_path in
              match fromfile (content queries_path) queries_dtype 8 with
              | Raised e => Raised e
              | Returned items =>
                match reshape items queries_dtype num_queries num_dimensions with
                | Raised e => Raised e
                | Returned queries_dataset =>
                  Returned (From_binary train_dataset queries_dataset
                              gtruth_dataset)
                end
              end
            end
          end
        end
      end
  end.

End Loader.

End Dataset.

(** ** What the store holds for a backend *)

(** The records the store holds for [index_type], as [load_store] and
    [append_record] read the file: an absent or empty file, a file that
    does not load and an object without the backend's key hold no records;
    [None] stands for a parsed document the record cannot be added to. *)
Definition stored (metrics_file index_type : string) (w : world)
  : option (list json) :=
  match files w !! metrics_file with
  | None => Some []
  | Some d =>
    if nonempty d then
      match json_load d with
      | Rejected | Failed _ => Some []
      | Parsed (JObj fields) =>
        match Dict.get index_type fields with
        | None => Some []
        | Some (JArr records) => Some records
        | Some _ => None
        end
      | Parsed _ => None
      end
    else Some []
  end.

(** The store file can be read: it is absent or empty, or [json.load]
    returns or raises the one error the driver catches. *)
Definition readable (metrics_file : string) (w : world) : bool :=
  match files w !! metrics_file with
  | None => true
  | Some d =>
    if nonempty d then
      match json_load d with
      | Failed _ => false
      | Parsed _ | Rejected => true
      end
    else true
  end.

(** ** Throughput as the specification words it *)

(** The sum of all per-query durations. *)
Fixpoint spec_total (durations : list Q) : Q :=
  match durations with
  | [] => 0%Q
  | d :: rest => (d + spec_total rest)%Q
  end.

(** The mean latency, in seconds. *)
Definition spec_mean_latency (durations : list Q) : Q :=
  (spec_total durations / inject_Z (Z.of_nat (length durations)))%Q.

(** The keys of a record a sweep writes. *)
Definition record_keys : list string :=
  ["qps"; "latency"; "latency_p95"; "latency_p99"; "latency_p999";
   "recall"; "distance_type"].

(** [r] is an object with the keys of a sweep record. *)
Definition is_sweep_record (r : json) : Prop :=
  match r with
  | JObj fields => Dict.keys fields = record_keys
  | _ => False
  end.

(** The five timing metrics, in the order the source tests them. *)
Definition timing_names : list string :=
  ["qps"; "latency"; "latency_p95"; "latency_p99"; "latency_p999"].

Module LoaderSample.

(** Header (2 points, 3 dimensions) and six bytes. *)
Definition train_u8 : list byte :=
  [x02; x00; x00; x00;  x03; x00; x00; x00;
   x0a; x0b; x0c;  x14; x15; x16].

(** Header (1 query, 1 neighbour), one id and one distance. *)
Definition gtruth_1x1 : list byte :=
  [x01; x00; x00; x00;  x01; x00; x00; x00;
   x01; x00; x00; x00;  x00; x00; x80; x3f].

(** A header that says (9 points, 9 dimensions) and three bytes. *)
Definition queries_u8 : list byte :=
  [x09; x00; x00; x00;  x09; x00; x00; x00;
   x01; x02; x03].

(** The same three bytes behind another header. *)
Definition queries_u8' : list byte :=
  [x01; x00; x00; x00;  x03; x00; x00; x00;
   x01; x02; x03].

Definition disk : gmap string (list byte) :=
  {[ "base.u8bin" := train_u8; "query.u8bin" := queries_u8;
     "gt.bin" := gtruth_1x1 ]}.

(** An [npy] loader that refuses everything. *)
Definition no_npy (dt : Dataset.dtype) (data : list byte) : outcome unit :=
  Raised (ValueError "not an npy file").

End LoaderSample.

Module Faulty.

(** A backend that answers with one id fewer than asked for. *)
Definition one_short : backend := {|
  clock := clock Sample.exact;
  search_single := fun _ _ _ K _ => map Z.of_nat (seq 0 (Z.to_nat K - 1));
  knn_query := fun _ _ _ k => map Z.of_nat (seq 0 (Z.to_nat k - 1))
|}.

(** A backend that answers with the ids [k-1 .. 0], the answers of
    [Sample.exact] in reverse. *)
Definition reversed : backend := {|
  clock := clock Sample.exact;
  search_single := fun _ _ _ K _ => rev (map Z.of_nat (seq 0 (Z.to_nat K)));
  knn_query := fun _ _ _ k => rev (map Z.of_nat (seq 0 (Z.to_nat k)))
|}.

(** Ground truth with a single row, for two queries. *)
Definition one_row : list (list Z) := [[0; 1; 2; 3]].

(** Ground truth in which every row holds the ids [0 .. 3], reordered and
    with repetitions. *)
Definition all_true : list (list Z) := [[3; 2; 1; 0]; [0; 0; 1; 2; 3; 9]].

End Faulty.

(** ** Counting calls *)

(** [e] is a search on an index. *)
Definition is_search_call (e : event) : bool :=
  match e with
  | Flatnav_search_single _ _ _ _ | Hnsw_knn_query _ _ => true
  | _ => false
  end.

(** [e] is the log line that precedes a call of [train_index]. *)
Definition is_building_log (e : event) : bool :=
  match e with
  | Logging_info (Msg_building _) => true
  | _ => false
  end.


(** * Properties *)

(** ** The monad and the loops *)

Lemma bind_returned {A B} (c : M A) (k : A -> M B) w w' a :
  c w = (w', Returned a) -> bind c k w = k a w'.
Proof. intros H. unfold bind. now rewrite H. Qed.

Lemma bind_raised {A B} (c : M A) (k : A -> M B) w w' e :
  c w = (w', Raised e) -> bind c k w = (w', Raised e).
Proof. intros H. unfold bind. now rewrite H. Qed.

Lemma world_eta w :
  {| trace := trace w; files := files w; ticks := ticks w |} = w.
Proof. now destruct w. Qed.

(** Both search loops: the world after, the durations and the answers. *)
Lemma search_loop_flatnav_run env ix queries ef k : forall lat top w,
  for_each queries
    (fun query '(latencies, top_k_indices) =>
       let* start := time_time env in
       let* indices := call_search_single env ix query ef k 100 in
       let* end_ := time_time env in
       ret (latencies ++ [(end_ - start)%Q], top_k_indices ++ [indices]))
    (lat, top) w
  = ({| trace := trace w ++ map (fun q => Flatnav_search_single q ef k 100) queries;
        files := files w;
        ticks := ticks w + 2 * length queries |},
     Returned (lat ++ durations env (ticks w) (length queries),
               top ++ map (fun q => search_single env ix q ef k 100) queries)).
Proof.
  induction queries as [|q rest IH]; intros lat top w.
  - cbn. rewrite !app_nil_r, Nat.add_0_r, world_eta. reflexivity.
  - cbn [for_each]. unfold bind at 1. cbn.
    rewrite IH. cbn. f_equal.
    + f_equal.
      * now rewrite <- app_assoc.
      * lia.
    + now rewrite <- !app_assoc.
Qed.

Lemma search_loop_hnsw_run env ix queries ef k : forall lat top w,
  for_each queries
    (fun query '(latencies, top_k_indices) =>
       let* start := time_time env in
       let* indices := call_knn_query env ix ef query k in
       let* end_ := time_time env in
       ret (latencies ++ [(end_ - start)%Q], top_k_indices ++ [indices]))
    (lat, top) w
  = ({| trace := trace w ++ map (fun q => Hnsw_knn_query q k) queries;
        files := files w;
        ticks := ticks w + 2 * length queries |},
     Returned (lat ++ durations env (ticks w) (length queries),
               top ++ map (fun q => knn_query env ix ef q k) queries)).
Proof.
  induction queries as [|q rest IH]; intros lat top w.
  - cbn. rewrite !app_nil_r, Nat.add_0_r, world_eta. reflexivity.
  - cbn [for_each]. unfold bind at 1. cbn.
    rewrite IH. cbn. f_equal.
    + f_equal.
      * now rewrite <- app_assoc.
      * lia.
    + now rewrite <- !app_assoc.
Qed.

Lemma search_loop_hnsw_all env ix queries ef k w :
  search_loop_hnsw env ix queries ef k w
  = ({| trace := trace w ++ Hnsw_set_ef ef :: map (fun q => Hnsw_knn_query q k) queries;
        files := files w;
        ticks := ticks w + 2 * length queries |},
     Returned (durations env (ticks w) (length queries),
               map (fun q => knn_query env ix ef q k) queries)).
Proof.
  unfold search_loop_hnsw.
  rewrite (bind_returned _ _ w _ tt eq_refl).
  rewrite search_loop_hnsw_run. cbn. now rewrite <- app_assoc.
Qed.

(** A scoring call is its searches followed by [score] on what they gave. *)
Lemma compute_metrics_run env requested ix queries gt ef k w :
  compute_metrics env requested ix queries gt ef k w
  = ({| trace := trace w ++ search_events ix queries ef k;
        files := files w;
        ticks := ticks w + 2 * length queries |},
     score requested (length queries) gt k
       (durations env (ticks w) (length queries))
       (answers env ix queries ef k)).
Proof.
  unfold compute_metrics, answers, search_events.
  destruct (is_flatnav ix).
  - unfold search_loop_flatnav, bind at 1.
    rewrite search_loop_flatnav_run. reflexivity.
  - unfold bind at 1. rewrite search_loop_hnsw_all. reflexivity.
Qed.

(** ** Recall *)

Lemma Qeq_bool_inject_Z_nonzero (z : Z) :
  z <> 0 -> Qeq_bool (inject_Z z) 0 = false.
Proof.
  intros Hz. unfold Qeq_bool, inject_Z. cbn.
  rewrite Z.mul_1_r. now apply Z.eqb_neq.
Qed.

Lemma spec_query_recall_bounds (returned truth : list Z) :
  (0 <= spec_query_recall returned truth <= 1)%Q.
Proof.
  unfold spec_query_recall.
  set (hits := length (filter (fun id => id ∈ truth) returned)).
  assert (Hle : (hits <= length returned)%nat) by apply length_filter.
  destruct (length returned) as [|n] eqn:Hlen.
  - assert (hits = 0%nat) as -> by lia. cbn. split; discriminate.
  - assert (Hpos : (0 < inject_Z (Z.of_nat (S n)))%Q).
    { rewrite <- (Zlt_Qlt 0). lia. }
    split.
    + apply Qle_shift_div_l; [exact Hpos|].
      rewrite Qmult_0_l. rewrite <- (Zle_Qle 0). lia.
    + apply Qle_shift_div_r; [exact Hpos|].
      rewrite Qmult_1_l. rewrite <- Zle_Qle. lia.
Qed.

Lemma qsum_unit_bounds (l : list Q) :
  Forall (fun x => 0 <= x <= 1)%Q l ->
  (0 <= qsum l <= inject_Z (Z.of_nat (length l)))%Q.
Proof.
  induction 1 as [|x l [Hx0 Hx1] _ [IH0 IH1]].
  - cbn. split; apply Qle_refl.
  - cbn [qsum foldr length]. rewrite Nat2Z.inj_succ.
    unfold Z.succ. rewrite inject_Z_plus.
    change (foldr Qplus 0%Q l) with (qsum l).
    change (inject_Z 1) with 1%Q. split; lra.
Qed.

Lemma spec_recall_bounds (results truths : list (list Z)) :
  (0 <= spec_recall results truths <= 1)%Q.
Proof.
  unfold spec_recall.
  set (fractions := zip_with spec_query_recall results truths).
  assert (Hall : Forall (fun x => 0 <= x <= 1)%Q fractions).
  { apply Forall_forall. intros x Hx.
    apply list_elem_of_lookup in Hx as [i Hi].
    apply lookup_zip_with_Some in Hi as (row & truth & -> & _ & _).
    apply spec_query_recall_bounds. }
  destruct (qsum_unit_bounds _ Hall) as [H0 H1].
  assert (Hlen : (length fractions <= length results)%nat).
  { unfold fractions. rewrite length_zip_with. lia. }
  destruct (length results) as [|n] eqn:Hn.
  - assert (length fractions = 0%nat) as Hz by lia.
    apply nil_length_inv in Hz. rewrite Hz. cbn. split; discriminate.
  - assert (Hpos : (0 < inject_Z (Z.of_nat (S n)))%Q).
    { rewrite <- (Zlt_Qlt 0). lia. }
    split.
    + apply Qle_shift_div_l; [exact Hpos|]. now rewrite Qmult_0_l.
    + apply Qle_shift_div_r; [exact Hpos|]. rewrite Qmult_1_l.
      eapply Qle_trans; [exact H1|]. rewrite <- Zle_Qle. lia.
Qed.

(** All returned ids are true neighbours: the query's fraction is one. *)
Lemma spec_query_recall_full (returned truth : list Z) :
  returned <> [] ->
  (forall id, id ∈ returned -> id ∈ truth) ->
  (spec_query_recall returned truth == 1)%Q.
Proof.
  intros Hne Hsub. unfold spec_query_recall.
  assert (Hall : filter (fun id => id ∈ truth) returned = returned).
  { clear Hne. induction returned as [|x l IH]; [reflexivity|].
    rewrite filter_cons_True by (apply Hsub; left).
    f_equal. apply IH. intros id Hid. apply Hsub. now right. }
  rewrite Hall. apply Qmult_inv_r.
  intros Heq. change 0%Q with (inject_Z 0) in Heq.
  apply (proj1 (inject_Z_injective _ _)) in Heq.
  destruct returned; [congruence | cbn [length] in Heq; lia].
Qed.

(** The order of the returned ids does not change the query's fraction. *)
Lemma spec_query_recall_perm (returned returned' truth : list Z) :
  returned ≡ₚ returned' ->
  spec_query_recall returned truth = spec_query_recall returned' truth.
Proof.
  intros Hp. unfold spec_query_recall.
  now rewrite (Permutation_length Hp),
    (Permutation_length (filter_Permutation _ _ _ Hp)).
Qed.

(** The recall loop adds up the per-query fractions. *)
Lemma recall_loop_sum (gt : list (list Z)) (k : Z) :
  0 < k ->
  forall rows idx acc,
    Forall (fun row => Z.of_nat (length row) = k) rows ->
    (idx + length rows <= length gt)%nat ->
    exists r,
      recall_loop (map list_to_set gt) k idx rows acc = Returned r
      /\ (r == acc + qsum (zip_with spec_query_recall rows (drop idx gt)))%Q.
Proof.
  intros Hk rows.
  induction rows as [|row rest IH]; intros idx acc Hrows Hlen.
  - exists acc. split; [reflexivity|]. cbn. lra.
  - apply Forall_cons in Hrows as [Hrow Hrest]. cbn [length] in Hlen.
    destruct (lookup_lt_is_Some_2 gt idx) as [truth Htruth]; [lia|].
    destruct row as [|id row']; [cbn in Hrow; lia|].
    cbn [recall_loop query_hits].
    change (map list_to_set gt) with ((list_to_set <$> gt) : list (gset Z)).
    rewrite list_lookup_fmap, Htruth. cbn [fmap option_fmap option_map].
    unfold truediv. rewrite Qeq_bool_inject_Z_nonzero by lia.
    destruct (IH (S idx)
                (acc + inject_Z (Z.of_nat (length
                   (filter (fun neighbor => neighbor ∈ (list_to_set truth : gset Z))
                      (id :: row')))) / inject_Z k)%Q Hrest) as (r & Hr & Hsum);
      [lia|].
    exists r. split; [exact Hr|].
    rewrite Hsum. rewrite (drop_S gt truth idx Htruth).
    cbn [zip_with qsum foldr].
    change (foldr Qplus 0%Q ?l) with (qsum l).
    unfold spec_query_recall at 2.
    rewrite (list_filter_iff (fun neighbor => neighbor ∈ (list_to_set truth : gset Z))
               (fun id0 => id0 ∈ truth)) by (intros; apply elem_of_list_to_set).
    rewrite Hrow. lra.
Qed.

(** ** The metrics engine *)

Lemma timing_metrics_set_recall requested n latencies (r : Q) :
  Dict.set "recall" (JNum r) (timing_metrics requested n latencies)
  = timing_metrics requested n latencies ++ [("recall", JNum r)].
Proof.
  unfold timing_metrics, entry_if.
  repeat (destruct (bool_decide (_ ∈ requested))); reflexivity.
Qed.

Lemma get_recall_after_timing requested n latencies (v : json) :
  Dict.get "recall" (timing_metrics requested n latencies ++ [("recall", v)])
  = Some v.
Proof.
  unfold timing_metrics, entry_if.
  repeat (destruct (bool_decide (_ ∈ requested))); reflexivity.
Qed.

Lemma get_qps_after_timing requested n latencies (tail : pydict) :
  bool_decide ("qps" ∈ requested) = true ->
  Dict.get "qps" (timing_metrics requested n latencies ++ tail)
  = Some (JNum (inject_Z (Z.of_nat n) / qsum latencies)%Q).
Proof.
  intros Hq. unfold timing_metrics, entry_if. rewrite Hq. reflexivity.
Qed.

Lemma get_latency_after_timing requested n latencies (tail : pydict) :
  bool_decide ("latency" ∈ requested) = true ->
  Dict.get "latency" (timing_metrics requested n latencies ++ tail)
  = Some (JNum (Numpy.mean latencies * 1000)%Q).
Proof.
  intros Hl. unfold timing_metrics, entry_if. rewrite Hl.
  destruct (bool_decide ("qps" ∈ requested)); reflexivity.
Qed.

(** When every query got [k] answers, the ground truth has a row for each
    and the total time is not zero (or [qps] is not asked for), scoring
    returns the timing metrics followed by the recall. *)
Lemma score_returns requested n gt k latencies top :
  (0 < n)%nat -> length top = n -> 0 < k ->
  forallb (fun indices => Z.of_nat (length indices) =? k) top = true ->
  (n <= length gt)%nat ->
  (bool_decide ("qps" ∈ requested) = true -> Qeq_bool (qsum latencies) 0 = false) ->
  exists r,
    score requested n gt k latencies top
    = Returned (timing_metrics requested n latencies ++ [("recall", JNum r)])
    /\ (r == spec_recall top gt)%Q.
Proof.
  intros Hn Hlen Hk Hall Hgt Hqps.
  assert (Hrows : Forall (fun row => Z.of_nat (length row) = k) top).
  { apply Forall_forall. intros row Hrow.
    rewrite forallb_forall in Hall. apply Z.eqb_eq, Hall.
    now apply list_elem_of_In. }
  destruct (recall_loop_sum gt k Hk top 0%nat 0%Q Hrows) as (total & Hloop & Hsum);
    [cbn; lia|].
  exists (total / inject_Z (Z.of_nat n))%Q. split.
  - unfold score. rewrite Hall. cbn [negb].
    destruct top as [|row rest]; [cbn in Hlen; lia|].
    cbn [Numpy.stack]. rewrite Hloop.
    unfold truediv at 2. rewrite Qeq_bool_inject_Z_nonzero by lia.
    rewrite <- timing_metrics_set_recall.
    unfold timing_metrics, entry_if, when_requested, truediv.
    destruct (bool_decide ("qps" ∈ requested)).
    + rewrite (Hqps eq_refl).
      repeat (destruct (bool_decide (_ ∈ requested))); reflexivity.
    + repeat (destruct (bool_decide (_ ∈ requested))); reflexivity.
  - unfold spec_recall. rewrite Hlen, Hsum. rewrite drop_0.
    rewrite Qplus_0_l. reflexivity.
Qed.

Lemma length_answers env ix queries ef k :
  length (answers env ix queries ef k) = length queries.
Proof. unfold answers. destruct (is_flatnav ix); apply length_map. Qed.

(** C6. Whenever every query gets its [k] answers and has a ground-truth
    row, the recall that [compute_metrics] reports is the per-query
    fraction of returned ids that belong to the query's ground-truth ids,
    averaged uniformly over the queries; it lies between 0 and 1; and a
    query all of whose returned ids are ground-truth ids contributes the
    fraction 1. *)
Theorem compute_metrics_recall env requested ix queries gt ef k w :
  (0 < length queries)%nat ->
  0 < k ->
  forallb (fun indices => Z.of_nat (length indices) =? k)
    (answers env ix queries ef k) = true ->
  (length queries <= length gt)%nat ->
  (bool_decide ("qps" ∈ requested) = true ->
   Qeq_bool (qsum (durations env (ticks w) (length queries))) 0 = false) ->
  exists w' m r,
    compute_metrics env requested ix queries gt ef k w = (w', Returned m)
    /\ Dict.get "recall" m = Some (JNum r)
    /\ (r == spec_recall (answers env ix queries ef k) gt)%Q
    /\ (0 <= r <= 1)%Q
    /\ (forall i returned truth,
          answers env ix queries ef k !! i = Some returned ->
          gt !! i = Some truth ->
          (forall id, id ∈ returned -> id ∈ truth) ->
          (spec_query_recall returned truth == 1)%Q).
Proof.
  intros Hn Hk Hall Hgt Hqps.
  destruct (score_returns requested (length queries) gt k
              (durations env (ticks w) (length queries))
              (answers env ix queries ef k) Hn (length_answers _ _ _ _ _)
              Hk Hall Hgt Hqps) as (r & Hscore & Hr).
  rewrite compute_metrics_run, Hscore.
  eexists _, _, r. split; [reflexivity|].
  split; [apply get_recall_after_timing|].
  split; [exact Hr|].
  split; [rewrite Hr; apply spec_recall_bounds|].
  intros i returned truth Hi _ Hsub.
  apply spec_query_recall_full; [|exact Hsub].
  intros ->.
  rewrite forallb_forall in Hall.
  assert (Hin : In ([] : list Z) (answers env ix queries ef k)).
  { apply list_elem_of_In, list_elem_of_lookup. eauto. }
  apply Hall, Z.eqb_eq in Hin. cbn in Hin. lia.
Qed.

Lemma compute_metrics_recall_sample :
  exists w' m r,
    compute_metrics Sample.exact ["recall"] Sample.flat_index Sample.queries
      Sample.small_gtruth 50 4 Sample.start = (w', Returned m)
    /\ Dict.get "recall" m = Some (JNum r)
    /\ (r == spec_recall
              (answers Sample.exact Sample.flat_index Sample.queries 50 4)
              Sample.small_gtruth)%Q
    /\ (0 <= r <= 1)%Q
    /\ (forall i returned truth,
          answers Sample.exact Sample.flat_index Sample.queries 50 4 !! i
            = Some returned ->
          Sample.small_gtruth !! i = Some truth ->
          (forall id, id ∈ returned -> id ∈ truth) ->
          (spec_query_recall returned truth == 1)%Q).
Proof.
  apply compute_metrics_recall;
    [ simpl; lia | lia | reflexivity | simpl; lia | intros _; reflexivity ].
Defined.

(** The engine's sum and mean are the sum and the mean. *)
Lemma qsum_spec_total (l : list Q) : qsum l = spec_total l.
Proof.
  induction l as [|d rest IH]; [reflexivity|].
  cbn [qsum foldr spec_total]. change (foldr Qplus 0%Q rest) with (qsum rest).
  now rewrite IH.
Qed.

Lemma mean_spec_mean_latency (l : list Q) :
  Numpy.mean l = spec_mean_latency l.
Proof. unfold Numpy.mean, spec_mean_latency. now rewrite qsum_spec_total. Qed.

Lemma length_durations env t n : length (durations env t n) = n.
Proof.
  revert t. induction n as [|n IH]; intros t; cbn; [reflexivity|].
  now rewrite IH.
Qed.

(** C7, as the code has it. Whenever the scoring call reaches the timing
    metrics and the per-query durations do not add up to zero, the
    reported [qps] is the number of queries divided by the sum of the
    per-query durations, the reported [latency] is their mean in
    milliseconds, and [qps] times the mean latency in seconds times the
    number of queries is the number of queries. *)
Theorem compute_metrics_qps env requested ix queries gt ef k w :
  (0 < length queries)%nat ->
  0 < k ->
  forallb (fun indices => Z.of_nat (length indices) =? k)
    (answers env ix queries ef k) = true ->
  (length queries <= length gt)%nat ->
  Qeq_bool (spec_total (durations env (ticks w) (length queries))) 0 = false ->
  bool_decide ("qps" ∈ requested) = true ->
  bool_decide ("latency" ∈ requested) = true ->
  exists w' m qps latency,
    compute_metrics env requested ix queries gt ef k w = (w', Returned m)
    /\ Dict.get "qps" m = Some (JNum qps)
    /\ Dict.get "latency" m = Some (JNum latency)
    /\ (qps == inject_Z (Z.of_nat (length queries))
               / spec_total (durations env (ticks w) (length queries)))%Q
    /\ (latency
        == spec_mean_latency (durations env (ticks w) (length queries)) * 1000)%Q
    /\ (qps * (latency / 1000) * inject_Z (Z.of_nat (length queries))
        == inject_Z (Z.of_nat (length queries)))%Q.
Proof.
  intros Hn Hk Hall Hgt Htotal Hqps Hlat.
  assert (Htotal' : Qeq_bool (qsum (durations env (ticks w) (length queries))) 0
                    = false) by now rewrite qsum_spec_total.
  destruct (score_returns requested (length queries) gt k
              (durations env (ticks w) (length queries))
              (answers env ix queries ef k) Hn (length_answers _ _ _ _ _)
              Hk Hall Hgt (fun _ => Htotal')) as (r & Hscore & _).
  rewrite compute_metrics_run, Hscore.
  eexists _, _, _, _. split; [reflexivity|].
  split; [now apply get_qps_after_timing|].
  split; [now apply get_latency_after_timing|].
  rewrite mean_spec_mean_latency, qsum_spec_total.
  split; [reflexivity|]. split; [reflexivity|].
  unfold spec_mean_latency. rewrite length_durations.
  apply Qeq_bool_neq in Htotal.
  assert (Hcount : ~ (inject_Z (Z.of_nat (length queries)) == 0)%Q).
  { change 0%Q with (inject_Z 0). rewrite inject_Z_injective. lia. }
  field. split; [exact Hcount | exact Htotal].
Qed.

Lemma compute_metrics_qps_sample :
  exists w' m qps latency,
    compute_metrics Sample.exact ["qps"; "latency"] Sample.flat_index
      Sample.queries Sample.small_gtruth 50 4 Sample.start = (w', Returned m)
    /\ Dict.get "qps" m = Some (JNum qps)
    /\ Dict.get "latency" m = Some (JNum latency)
    /\ (qps == inject_Z (Z.of_nat (length Sample.queries))
               / spec_total (durations Sample.exact (ticks Sample.start)
                               (length Sample.queries)))%Q
    /\ (latency
        == spec_mean_latency (durations Sample.exact (ticks Sample.start)
                                (length Sample.queries)) * 1000)%Q
    /\ (qps * (latency / 1000) * inject_Z (Z.of_nat (length Sample.queries))
        == inject_Z (Z.of_nat (length Sample.queries)))%Q.
Proof.
  apply compute_metrics_qps;
    [ simpl; lia | lia | reflexivity | simpl; lia
    | reflexivity | reflexivity | reflexivity ].
Defined.

(** C7, as stated, fails: two queries timed by a clock that stands still
    give the non-empty duration list [[0; 0]], whose sum is zero, and the
    division for [qps] raises; no [qps] is reported. *)
Lemma compute_metrics_qps_zero_total :
  length (durations Sample.frozen (ticks Sample.start) (length Sample.queries))
  = 2%nat
  /\ (spec_total (durations Sample.frozen (ticks Sample.start)
                    (length Sample.queries)) == 0)%Q
  /\ snd (compute_metrics Sample.frozen ["qps"; "latency"] Sample.flat_index
            Sample.queries Sample.small_gtruth 50 4 Sample.start)
     = Raised ZeroDivisionError.
Proof. repeat split. Qed.

(** Durations that add up to zero always stop a call that asks for
    [qps]. *)
Lemma compute_metrics_zero_total_raises env requested ix queries gt ef k w :
  (0 < length queries)%nat ->
  forallb (fun indices => Z.of_nat (length indices) =? k)
    (answers env ix queries ef k) = true ->
  Qeq_bool (spec_total (durations env (ticks w) (length queries))) 0 = true ->
  bool_decide ("qps" ∈ requested) = true ->
  snd (compute_metrics env requested ix queries gt ef k w)
  = Raised ZeroDivisionError.
Proof.
  intros Hn Hall Hzero Hqps. rewrite compute_metrics_run. cbn [snd].
  unfold score. rewrite Hall. cbn [negb].
  destruct (answers env ix queries ef k) as [|row rest] eqn:Hans.
  { apply (f_equal length) in Hans. rewrite length_answers in Hans.
    cbn in Hans. lia. }
  cbn [Numpy.stack]. unfold when_requested, truediv.
  rewrite Hqps, qsum_spec_total, Hzero. reflexivity.
Qed.

(** With a clock that stands still the durations add up to zero and the
    division for [qps] raises. *)
Lemma compute_metrics_frozen_clock :
  snd (compute_metrics Sample.frozen ["qps"] Sample.flat_index Sample.queries
         Sample.small_gtruth 50 4 Sample.start)
  = Raised ZeroDivisionError.
Proof. reflexivity. Qed.

(** Whatever was asked for, a record that [score] returns is the timing
    metrics that were asked for followed by the recall. *)
Lemma score_shape requested n gt k latencies top m :
  score requested n gt k latencies top = Returned m ->
  exists r, m = timing_metrics requested n latencies ++ [("recall", JNum r)].
Proof.
  unfold score.
  destruct (negb _); [discriminate|].
  destruct (Numpy.stack top) as [e|rows]; [discriminate|].
  destruct (recall_loop _ k 0 rows 0) as [e|total] eqn:Hloop.
  - unfold when_requested.
    repeat (destruct (bool_decide (_ ∈ requested)));
      repeat (destruct (truediv _ _)); discriminate.
  - intros Hm.
    destruct (truediv total (inject_Z (Z.of_nat n))) as [e|r] eqn:Hdiv.
    + unfold when_requested in Hm.
      repeat (destruct (bool_decide (_ ∈ requested)));
        repeat (destruct (truediv (inject_Z _) (qsum _))); discriminate.
    + exists r. rewrite <- timing_metrics_set_recall.
      unfold timing_metrics, entry_if.
      unfold when_requested, truediv in Hm.
      destruct (bool_decide ("qps" ∈ requested));
        [destruct (Qeq_bool (qsum latencies) 0)|];
        repeat (destruct (bool_decide (_ ∈ requested)));
        try discriminate; injection Hm as <-; reflexivity.
Qed.

(** C3. With only [qps] asked for, the record that comes back holds the
    recall as well: the recall is computed on every call. *)
Theorem compute_metrics_unrequested_recall :
  exists w' m,
    compute_metrics Sample.exact ["qps"] Sample.flat_index Sample.queries
      Sample.small_gtruth 50 4 Sample.start = (w', Returned m)
    /\ bool_decide ("recall" ∈ ["qps"]) = false
    /\ Dict.keys m = ["qps"; "recall"]
    /\ exists r, Dict.get "recall" m = Some (JNum r) /\ (r == 3 # 4)%Q.
Proof.
  rewrite compute_metrics_run.
  eexists _, _. split; [vm_compute; reflexivity|].
  split; [reflexivity|]. split; [reflexivity|].
  eexists. split; reflexivity.
Qed.

(** ** The ground-truth reader *)

Lemma le_value_range (bs : list byte) :
  0 <= GroundTruth.le_value bs < 256 ^ Z.of_nat (length bs).
Proof.
  induction bs as [|b bs IH].
  - cbn. lia.
  - cbn [GroundTruth.le_value foldr length].
    change (foldr _ 0 bs) with (GroundTruth.le_value bs).
    rewrite Nat2Z.inj_succ, Z.pow_succ_r by lia.
    pose proof (Byte.to_N_bounded b). lia.
Qed.

Lemma fromfile_u32_range data pos v :
  GroundTruth.fromfile_u32 data pos = Returned v ->
  0 <= v < GroundTruth.u32_modulus.
Proof.
  unfold GroundTruth.fromfile_u32.
  destruct (length (take 4 (drop pos data)) =? 4)%nat eqn:Hlen; [|discriminate].
  intros [= <-]. apply Nat.eqb_eq in Hlen.
  pose proof (le_value_range (take 4 (drop pos data))) as H.
  rewrite Hlen in H. exact H.
Qed.

Lemma wrap64_small (z : Z) :
  - 2 ^ 63 <= z < 2 ^ 63 -> GroundTruth.wrap64 z = z.
Proof.
  intros Hz. unfold GroundTruth.wrap64. rewrite Z.mod_small by lia. lia.
Qed.

(** A view a mapping returns is the one that was asked for. *)
Lemma memmap_returned flen dt rows cols offset v :
  GroundTruth.memmap flen dt rows cols offset = Returned v ->
  v = {| GroundTruth.view_dtype := dt; GroundTruth.view_offset := offset;
         GroundTruth.view_rows := rows; GroundTruth.view_cols := cols |}.
Proof.
  unfold GroundTruth.memmap.
  destruct (GroundTruth.mmap _ _ _); [discriminate|].
  destruct (_ <? _); [discriminate|].
  destruct (_ <=? _); [discriminate|]. now intros [= <-].
Qed.

(** Where no 64-bit result wraps around, a mapping is refused exactly when
    it ends beyond the end of the file. *)
Lemma memmap_in_range flen dt rows cols offset :
  0 <= flen -> 0 <= rows * cols -> 0 <= offset ->
  offset + rows * cols * 4 < 2 ^ 63 ->
  (rows * cols = 0 -> offset mod 4096 <> 0) ->
  GroundTruth.memmap flen dt rows cols offset
  = if flen <? offset + rows * cols * 4
    then Raised (ValueError "mmap length is greater than file size")
    else Returned {| GroundTruth.view_dtype := dt;
                     GroundTruth.view_offset := offset;
                     GroundTruth.view_rows := rows;
                     GroundTruth.view_cols := cols |}.
Proof.
  intros Hflen Hsize Hoff Hfit Hzero.
  unfold GroundTruth.memmap, GroundTruth.itemsize,
    GroundTruth.ALLOCATIONGRANULARITY.
  pose proof (Z.mod_pos_bound offset 4096 ltac:(lia)) as Hm.
  pose proof (Z.mod_le offset 4096 Hoff ltac:(lia)) as Hle.
  set (m := offset mod 4096) in *.
  rewrite (wrap64_small (rows * cols)) by lia.
  rewrite (wrap64_small (rows * cols * 4)) by lia.
  rewrite (wrap64_small (4 * (rows * cols))) by lia.
  rewrite (wrap64_small (offset + rows * cols * 4)) by lia.
  rewrite (wrap64_small (offset - (offset - m) + 4 * (rows * cols))) by lia.
  unfold GroundTruth.mmap.
  assert (Hpos : 0 < offset + rows * cols * 4 - (offset - m)).
  { destruct (Z.eq_dec (rows * cols) 0) as [H0|H0]; [specialize (Hzero H0)|]; lia. }
  destruct (flen <? offset + rows * cols * 4) eqn:E;
    [apply Z.ltb_lt in E | apply Z.ltb_ge in E];
    repeat (match goal with
            | |- context [?a <? ?b] =>
              first [ rewrite (proj2 (Z.ltb_ge a b)) by lia
                    | rewrite (proj2 (Z.ltb_lt a b)) by lia ]
            | |- context [?a =? ?b] =>
              rewrite (proj2 (Z.eqb_neq a b)) by lia
            | |- context [?a <=? ?b] =>
              rewrite (proj2 (Z.leb_gt a b)) by lia
            end; cbn [orb]);
    try reflexivity.
  destruct (flen <? offset - m); reflexivity.
Qed.

(** C4, as the code has it. The only check on the length of a ground-truth
    file is the one memory-mapping makes. For a header whose offsets fit
    32 bits ([8 + Q*K*4 < 2^32], so that no product wraps around): a file
    too short for the header's two blocks is refused with a [ValueError];
    any file at least that long, the exact length or more, loads, and the
    two views are the id block at offset 8 and the distance block right
    after it. *)
Theorem load_ground_truth_size_check data q k :
  GroundTruth.fromfile_u32 data 0 = Returned q ->
  GroundTruth.fromfile_u32 data 4 = Returned k ->
  8 + q * k * 4 < GroundTruth.u32_modulus ->
  GroundTruth.load_ground_truth data =
    if Z.of_nat (length data) <? GroundTruth.declared_size q k
    then Raised (ValueError "mmap length is greater than file size")
    else Returned
           ({| GroundTruth.view_dtype := GroundTruth.Uint32;
               GroundTruth.view_offset := 8;
               GroundTruth.view_rows := q; GroundTruth.view_cols := k |},
            {| GroundTruth.view_dtype := GroundTruth.Float32;
               GroundTruth.view_offset := 8 + q * k * 4;
               GroundTruth.view_rows := q; GroundTruth.view_cols := k |},
            q, k).
Proof.
  intros Hq Hk Hsmall.
  pose proof (fromfile_u32_range _ _ _ Hq) as Hq0.
  pose proof (fromfile_u32_range _ _ _ Hk) as Hk0.
  unfold GroundTruth.load_ground_truth. rewrite Hq, Hk.
  unfold GroundTruth.dists_offset, GroundTruth.u32_mul.
  unfold GroundTruth.u32_modulus in *.
  assert (Hqk : 0 <= q * k) by nia.
  rewrite (Z.mod_small (q * k)) by lia.
  unfold GroundTruth.declared_size, GroundTruth.itemsize.
  rewrite (memmap_in_range _ _ q k 8) by (try lia; intros _; discriminate).
  rewrite (memmap_in_range _ _ q k (8 + q * k * 4)).
  - destruct (Z.of_nat (length data) <? 8 + q * k * 4) eqn:H1;
      destruct (Z.of_nat (length data) <? 8 + q * k * 4 + q * k * 4) eqn:H2;
      destruct (Z.of_nat (length data) <? 8 + 2 * (q * k * 4)) eqn:H3;
      try reflexivity; lia.
  - lia.
  - exact Hqk.
  - lia.
  - lia.
  - intros ->. discriminate.
Qed.

Lemma load_ground_truth_truncated_sample :
  GroundTruth.load_ground_truth Sample.truncated_file
  = Raised (ValueError "mmap length is greater than file size").
Proof.
  exact (load_ground_truth_size_check Sample.truncated_file 1 1
           eq_refl eq_refl eq_refl).
Defined.

(** Beyond that range: a header that declares 4294967295 queries of
    4294967295 neighbours makes the 64-bit element count wrap around to a
    negative number, and the mapping is refused with an [OverflowError]. *)
Lemma load_ground_truth_huge_header :
  GroundTruth.load_ground_truth Sample.huge_header_file
  = Raised (OverflowError "memory mapped length must be positive").
Proof. vm_compute. reflexivity. Qed.

(** C4, as stated, fails: a file with one surplus byte after the two
    declared blocks is not of the declared size, and it loads. *)
Lemma load_ground_truth_accepts_oversized :
  ~ GroundTruth.size_consistent GroundTruth.oversized_file
  /\ GroundTruth.load_ground_truth GroundTruth.oversized_file
     = Returned
         ({| GroundTruth.view_dtype := GroundTruth.Uint32;
             GroundTruth.view_offset := 8;
             GroundTruth.view_rows := 1; GroundTruth.view_cols := 1 |},
          {| GroundTruth.view_dtype := GroundTruth.Float32;
             GroundTruth.view_offset := 12;
             GroundTruth.view_rows := 1; GroundTruth.view_cols := 1 |},
          1, 1).
Proof.
  split; [|reflexivity].
  unfold GroundTruth.size_consistent. cbn. discriminate.
Qed.

(** ** The backend adapter *)

Lemma create_and_train_hnsw_index_run env data space dim size ef M threads w :
  create_and_train_hnsw_index env data space dim size ef M threads w
  = ({| trace := trace w ++
                 [Hnswlib_Index space dim; Hnsw_init_index size ef M;
                  Hnsw_set_num_threads threads; Hnsw_add_items size;
                  Logging_info (Msg_indexing_time
                                  (clock env (S (ticks w)) - clock env (ticks w)))];
        files := files w;
        ticks := S (S (ticks w)) |},
     Returned {| index_kind := HnswlibIndex; index_space := space;
                 index_dim := dim; index_max_edges := Some M;
                 index_ef_construction := Some ef;
                 index_mtx_filename := None; index_order := [] |}).
Proof.
  unfold create_and_train_hnsw_index, bind, emit, time_time, ret. cbn.
  now rewrite <- !app_assoc.
Qed.

(** The hnswlib branch of [train_index]: the calls it issues and the index
    it hands back. *)
Lemma train_index_hnsw_run
    env train_dataset distance_type dim dataset_size node_links ef_construction
    use_hnsw_base_layer hnsw_base_layer_filename num_build_threads w :
  train_index env train_dataset distance_type dim dataset_size node_links
    ef_construction "hnsw" use_hnsw_base_layer hnsw_base_layer_filename
    num_build_threads w
  = ({| trace := trace w ++
                 [Hnswlib_Index (hnsw_space distance_type) dim;
                  Hnsw_init_index dataset_size ef_construction (node_links / 2);
                  Hnsw_set_num_threads num_build_threads;
                  Hnsw_add_items dataset_size;
                  Logging_info (Msg_indexing_time
                                  (clock env (S (ticks w)) - clock env (ticks w)))];
        files := files w;
        ticks := S (S (ticks w)) |},
     Returned {| index_kind := HnswlibIndex;
                 index_space := hnsw_space distance_type;
                 index_dim := dim; index_max_edges := Some (node_links / 2);
                 index_ef_construction := Some ef_construction;
                 index_mtx_filename := None; index_order := [] |}).
Proof.
  unfold train_index.
  rewrite bool_decide_eq_true_2 by reflexivity.
  apply create_and_train_hnsw_index_run.
Qed.

(** C8. Building the hnswlib backend for a requested [node_links] passes
    [node_links // 2] as the [M] of [init_index], whatever the other
    arguments are; doubled again by the library's base layer, that is
    [node_links] itself when it is even and one less when it is odd. *)
Theorem train_index_hnsw_halves_node_links
    env train_dataset distance_type dim dataset_size node_links ef_construction
    use_hnsw_base_layer hnsw_base_layer_filename num_build_threads w :
  train_index env train_dataset distance_type dim dataset_size node_links
    ef_construction "hnsw" use_hnsw_base_layer hnsw_base_layer_filename
    num_build_threads w
  = ({| trace := trace w ++
                 [Hnswlib_Index (hnsw_space distance_type) dim;
                  Hnsw_init_index dataset_size ef_construction (node_links / 2);
                  Hnsw_set_num_threads num_build_threads;
                  Hnsw_add_items dataset_size;
                  Logging_info (Msg_indexing_time
                                  (clock env (S (ticks w)) - clock env (ticks w)))];
        files := files w;
        ticks := S (S (ticks w)) |},
     Returned {| index_kind := HnswlibIndex;
                 index_space := hnsw_space distance_type;
                 index_dim := dim; index_max_edges := Some (node_links / 2);
                 index_ef_construction := Some ef_construction;
                 index_mtx_filename := None; index_order := [] |})
  /\ node_links - 1 <= 2 * (node_links / 2) <= node_links.
Proof.
  split.
  - apply train_index_hnsw_run.
  - pose proof (Z.div_mod node_links 2 ltac:(lia)).
    pose proof (Z.mod_pos_bound node_links 2 ltac:(lia)). lia.
Qed.

(** C5, as the code has it. A build for the flatnav backend that asks to
    reuse the hnswlib base layer needs a file name, not a file: without a
    name (or with an empty one) it raises before anything is built; with a
    name it builds the hnswlib index itself, exports its base layer to that
    file, whether or not the file existed, and builds the flatnav index
    from it. *)
Theorem train_index_base_layer_reuse
    env train_dataset distance_type dim dataset_size node_links ef_construction
    index_type hnsw_base_layer_filename num_build_threads w :
  bool_decide (index_type = "hnsw") = false ->
  train_index env train_dataset distance_type dim dataset_size node_links
    ef_construction index_type true hnsw_base_layer_filename
    num_build_threads w
  = match truthy hnsw_base_layer_filename with
    | None =>
      (w, Raised (ValueError "Must provide a filename for the HNSW base layer graph."))
    | Some filename =>
      let hnsw_index :=
        {| index_kind := HnswlibIndex; index_space := hnsw_space distance_type;
           index_dim := dim; index_max_edges := Some (node_links / 2);
           index_ef_construction := Some ef_construction;
           index_mtx_filename := None; index_order := [] |} in
      ({| trace := trace w ++
                   [Hnswlib_Index (hnsw_space distance_type) dim;
                    Hnsw_init_index dataset_size ef_construction (node_links / 2);
                    Hnsw_set_num_threads num_build_threads;
                    Hnsw_add_items dataset_size;
                    Logging_info (Msg_indexing_time
                                    (clock env (S (ticks w)) - clock env (ticks w)));
                    Hnsw_save_base_layer_graph filename;
                    Flatnav_index_factory distance_type dim None None (Some filename);
                    Flatnav_allocate_nodes;
                    Flatnav_build_graph_links];
          files := <[filename := MatrixMarket hnsw_index]> (files w);
          ticks := S (S (ticks w)) |},
       Returned {| index_kind := if bool_decide (distance_type = "l2")
                                 then L2Index else IPIndex;
                   index_space := distance_type; index_dim := dim;
                   index_max_edges := None; index_ef_construction := None;
                   index_mtx_filename := Some filename; index_order := [] |})
    end.
Proof.
  intros Hflat. unfold train_index. rewrite Hflat.
  destruct (truthy hnsw_base_layer_filename) as [filename|]; [|reflexivity].
  erewrite bind_returned by apply create_and_train_hnsw_index_run.
  unfold bind, emit, write_file, index_factory, ret. cbn.
  now rewrite <- !app_assoc.
Qed.

Lemma train_index_base_layer_reuse_sample :
  train_index Sample.exact Sample.train "l2" 1 3 16 100 "flatnav" true None 1
    Sample.start
  = (Sample.start,
     Raised (ValueError "Must provide a filename for the HNSW base layer graph.")).
Proof.
  exact (train_index_base_layer_reuse Sample.exact Sample.train "l2" 1 3 16 100
           "flatnav" None 1 Sample.start eq_refl).
Defined.

(** C5, as stated, fails: reuse is asked for, no base-layer file exists,
    and the build succeeds, writing the file itself. *)
Lemma train_index_creates_base_layer :
  files Sample.start !! "base.mtx" = None
  /\ exists w' ix,
       train_index Sample.exact Sample.train "l2" 1 3 16 100 "flatnav" true
         (Some "base.mtx") 1 Sample.start = (w', Returned ix)
       /\ is_Some (files w' !! "base.mtx")
       /\ index_mtx_filename ix = Some "base.mtx".
Proof.
  split; [reflexivity|].
  eexists _, _. split; [vm_compute; reflexivity|].
  split; [|reflexivity]. vm_compute. eexists. reflexivity.
Qed.

(** ** The sweep *)

Lemma build_step_reorder_on_hnsw
    env td qs gt ef_search_params dt mf uhbl fname strategies bt st
    node_links ef_cons metrics w :
  build_step env td qs gt ef_search_params dt mf "hnsw" uhbl fname
    (Some strategies) bt st node_links ef_cons metrics w
  = ({| trace := trace w ++
                 [Logging_info (Msg_building "hnsw");
                  Hnswlib_Index (hnsw_space dt) (array_dim td);
                  Hnsw_init_index (Z.of_nat (length (array_rows td))) ef_cons
                    (node_links / 2);
                  Hnsw_set_num_threads bt;
                  Hnsw_add_items (Z.of_nat (length (array_rows td)));
                  Logging_info (Msg_indexing_time
                                  (clock env (S (ticks w)) - clock env (ticks w)))];
        files := files w;
        ticks := S (S (ticks w)) |},
     Raised (ValueError "Reordering only applies to the FlatNav index.")).
Proof.
  unfold build_step.
  rewrite (bind_returned _ _ w _ tt eq_refl).
  erewrite bind_returned by apply train_index_hnsw_run.
  cbn. now rewrite <- app_assoc.
Qed.

(** C1, as the code has it. A sweep over at least one node-link count and
    one construction width that asks for reordering on the hnswlib backend
    raises the configuration error right after the first index has been
    built: the only calls issued are those of that one build, and no
    reordering, no search and no write to any file takes place. *)
Theorem main_reorder_on_hnsw
    env train_dataset queries gtruth ef_cons more_ef_cons ef_search_params
    node_links more_node_links distance_type metrics_file
    use_hnsw_base_layer hnsw_base_layer_filename strategies
    num_initializations num_build_threads num_search_threads w :
  main env train_dataset queries gtruth (ef_cons :: more_ef_cons)
    ef_search_params (node_links :: more_node_links) distance_type
    metrics_file "hnsw" use_hnsw_base_layer hnsw_base_layer_filename
    (Some strategies) num_initializations num_build_threads
    num_search_threads w
  = ({| trace := trace w ++
                 [Logging_info (Msg_building "hnsw");
                  Hnswlib_Index (hnsw_space distance_type) (array_dim train_dataset);
                  Hnsw_init_index (Z.of_nat (length (array_rows train_dataset)))
                    ef_cons (node_links / 2);
                  Hnsw_set_num_threads num_build_threads;
                  Hnsw_add_items (Z.of_nat (length (array_rows train_dataset)));
                  Logging_info (Msg_indexing_time
                                  (clock env (S (ticks w)) - clock env (ticks w)))];
        files := files w;
        ticks := S (S (ticks w)) |},
     Raised (ValueError "Reordering only applies to the FlatNav index.")).
Proof.
  unfold main. cbn [for_each].
  erewrite bind_raised; [reflexivity|].
  erewrite bind_raised; [reflexivity|].
  erewrite bind_raised; [reflexivity|].
  apply build_step_reorder_on_hnsw.
Qed.

(** C1, as stated, fails: on the hnswlib backend with a reordering strategy
    the sweep does raise, but after the index has been built. *)
Lemma main_reorder_on_hnsw_builds_first :
  exists w',
    main Sample.exact Sample.train Sample.queries Sample.gtruth [100] [50] [16]
      "l2" "m.json" "hnsw" false None (Some ["gorder"]) None 1 1 Sample.start
    = (w', Raised (ValueError "Reordering only applies to the FlatNav index."))
    /\ List.filter is_build_call (trace w')
       = [Hnswlib_Index "l2" 1; Hnsw_init_index 3 100 8; Hnsw_add_items 3].
Proof.
  eexists. split; [vm_compute; reflexivity|]. reflexivity.
Qed.

(** *** The result store *)

Lemma dict_get_head key v (rest : pydict) :
  Dict.get key ((key, v) :: rest) = Some v.
Proof. cbn. now rewrite bool_decide_eq_true_2. Qed.

Lemma dict_set_head key v v' (rest : pydict) :
  Dict.set key v' ((key, v) :: rest) = (key, v') :: rest.
Proof. cbn. now rewrite bool_decide_eq_true_2. Qed.

Lemma append_record_to_list index_type metrics records :
  append_record index_type metrics (JObj [(index_type, JArr records)])
  = Returned (JObj [(index_type, JArr (records ++ [JObj metrics]))]).
Proof.
  unfold append_record, Dict.has.
  now rewrite !dict_get_head, dict_set_head.
Qed.

(** A write over a file that [json.load] rejects: the error is logged and
    the file becomes a store holding the one new record. *)
Lemma persist_unparsable metrics_file index_type metrics d w :
  files w !! metrics_file = Some d ->
  nonempty d = true ->
  json_load d = Rejected ->
  persist metrics_file index_type metrics w
  = ({| trace := trace w ++ [Logging_error (Msg_error_reading metrics_file)];
        files := <[metrics_file :=
                     Document (JObj [(index_type, JArr [JObj metrics])])]> (files w);
        ticks := ticks w |},
     Returned tt).
Proof.
  intros Hfile Hsize Hload.
  unfold persist, load_store, read_file, bind, lift, write_file, emit, ret.
  rewrite Hfile, Hsize, Hload. cbn [fst snd].
  now rewrite append_record_to_list.
Qed.

(** A write over a store that already lists records of this backend: the
    new record goes after them. *)
Lemma persist_document metrics_file index_type metrics records w :
  files w !! metrics_file
    = Some (Document (JObj [(index_type, JArr records)])) ->
  persist metrics_file index_type metrics w
  = ({| trace := trace w;
        files := <[metrics_file :=
                     Document (JObj [(index_type,
                                      JArr (records ++ [JObj metrics]))])]> (files w);
        ticks := ticks w |},
     Returned tt).
Proof.
  intros Hfile.
  unfold persist, load_store, read_file, bind, lift, write_file, ret.
  rewrite Hfile. cbn [nonempty json_load].
  now rewrite append_record_to_list.
Qed.

(** One iteration of the search loop whose scoring succeeds: the record it
    hands to the store is the scored metrics and the distance type. *)
Lemma search_step_scored env ix queries gt dt mf it nl efc ef metrics0 w w1 m :
  compute_metrics env all_metric_names ix queries gt ef 100 w = (w1, Returned m) ->
  exists recall qps latency,
    search_step env ix queries gt dt mf it nl efc ef metrics0 w
    = match persist mf it (Dict.set "distance_type" (JStr dt) m)
              {| trace := trace w1 ++
                          [Logging_info (Msg_recall recall qps latency nl efc ef)];
                 files := files w1; ticks := ticks w1 |} with
      | (w2, Raised e) => (w2, Raised e)
      | (w2, Returned _) => (w2, Returned (Dict.set "distance_type" (JStr dt) m))
      end
    /\ files w1 = files w
    /\ Dict.keys (Dict.set "distance_type" (JStr dt) m)
       = ["qps"; "latency"; "latency_p95"; "latency_p99"; "latency_p999";
          "recall"; "distance_type"].
Proof.
  intros Hrun. pose proof Hrun as Hrun'.
  rewrite compute_metrics_run in Hrun'.
  injection Hrun' as Hw1 Hscore.
  destruct (score_shape _ _ _ _ _ _ _ Hscore) as (r & Hm).
  eexists (JNum r), _, _. split; [|split].
  - unfold search_step.
    erewrite bind_returned by exact Hrun.
    unfold item.
    rewrite Hm, get_recall_after_timing,
      get_qps_after_timing, get_latency_after_timing by reflexivity.
    rewrite <- Hm.
    unfold bind at 1 2 3. cbn [ret].
    unfold bind at 1. cbn [emit].
    unfold bind, ret. reflexivity.
  - now rewrite <- Hw1.
  - rewrite Hm. reflexivity.
Qed.

(** C9, as the code has it. When the store file holds text that
    [json.load] rejects with [JSONDecodeError], the iteration that reaches
    its write logs the error, returns normally, and leaves a store that
    holds exactly the record of this iteration. *)
Theorem search_step_unparsable_store
    env ix queries gt dt mf it nl efc ef metrics0 w d :
  files w !! mf = Some d ->
  nonempty d = true ->
  json_load d = Rejected ->
  is_raised (snd (compute_metrics env all_metric_names ix queries gt ef 100 w))
    = false ->
  exists w' record,
    search_step env ix queries gt dt mf it nl efc ef metrics0 w
    = (w', Returned record)
    /\ files w' = <[mf := Document (JObj [(it, JArr [JObj record])])]> (files w)
    /\ last (trace w') = Some (Logging_error (Msg_error_reading mf)).
Proof.
  intros Hfile Hsize Hload Hscored.
  destruct (compute_metrics env all_metric_names ix queries gt ef 100 w)
    as [w1 [e|m]] eqn:Hrun; [discriminate|].
  destruct (search_step_scored env ix queries gt dt mf it nl efc ef metrics0
              w w1 m Hrun) as (recall & qps & latency & Hstep & Hfiles & _).
  rewrite Hstep.
  erewrite persist_unparsable; [| cbn; rewrite Hfiles; exact Hfile | exact Hsize
                                | exact Hload].
  eexists _, _. split; [reflexivity|]. cbn. split.
  - now rewrite Hfiles.
  - apply last_snoc.
Qed.

Lemma search_step_unparsable_store_sample :
  exists w' record,
    search_step Sample.exact Sample.flat_index Sample.queries Sample.gtruth
      "l2" "m.json" "flatnav" 16 100 50 [] Sample.corrupted
    = (w', Returned record)
    /\ files w' = <["m.json" := Document (JObj [("flatnav", JArr [JObj record])])]>
                    (files Sample.corrupted)
    /\ last (trace w') = Some (Logging_error (Msg_error_reading "m.json")).
Proof.
  apply (search_step_unparsable_store Sample.exact Sample.flat_index
           Sample.queries Sample.gtruth "l2" "m.json" "flatnav" 16 100 50 []
           Sample.corrupted (Unparsable 12));
    [ vm_compute; reflexivity | reflexivity | reflexivity
    | vm_compute; reflexivity ].
Defined.

(** C9, as stated, fails: a store file whose bytes are no text cannot be
    parsed, and the error that reading it raises is not the one the driver
    catches; the iteration raises, logs nothing and leaves the file as it
    was. *)
Lemma search_step_undecodable_store :
  exists w',
    search_step Sample.exact Sample.flat_index Sample.queries Sample.gtruth
      "l2" "m.json" "flatnav" 16 100 50 [] Sample.undecodable
    = (w', Raised UnicodeDecodeError)
    /\ files w' = files Sample.undecodable
    /\ List.filter (fun e => match e with
                             | Logging_error _ => true
                             | _ => false
                             end) (trace w') = [].
Proof.
  eexists. split; [vm_compute; reflexivity|]. split; reflexivity.
Qed.

(** A sweep of two search widths started on an unparsable store: the store
    ends up with the two records of the run and nothing else. *)
Lemma main_on_unparsable_store_sample :
  exists w' first second,
    main Sample.exact Sample.train Sample.queries Sample.gtruth [100] [50; 60]
      [16] "l2" "m.json" "flatnav" false None None None 1 1 Sample.corrupted
    = (w', Returned tt)
    /\ files w' !! "m.json"
       = Some (Document (JObj [("flatnav", JArr [JObj first; JObj second])])).
Proof.
  eexists _, _, _. split; vm_compute; reflexivity.
Qed.

(** C2. The record a sweep writes carries the metric values and the
    distance type; the node-link count and the construction width, set on
    the dictionary that [compute_metrics]'s result then replaces, and the
    search width are not in it. *)
Theorem main_record_lacks_sweep_parameters :
  exists w' record,
    main Sample.exact Sample.train Sample.queries Sample.gtruth [100] [50]
      [16] "l2" "m.json" "flatnav" false None None None 1 1 Sample.start
    = (w', Returned tt)
    /\ files w' !! "m.json"
       = Some (Document (JObj [("flatnav", JArr [JObj record])]))
    /\ Dict.keys record
       = ["qps"; "latency"; "latency_p95"; "latency_p99"; "latency_p999";
          "recall"; "distance_type"]
    /\ Dict.has "node_links" record = false
    /\ Dict.has "ef_construction" record = false
    /\ Dict.has "ef_search" record = false.
Proof.
  eexists _, _. split; [vm_compute; reflexivity|].
  split; [vm_compute; reflexivity|].
  repeat split.
Qed.

(** *** What the sweep passes to the searches *)

Section Emits.

Context (P : event -> Prop).

Lemma emits_ret {A} (a : A) : emits P (ret a).
Proof. intros w. exists []. cbn. now rewrite app_nil_r. Qed.

Lemma emits_raise {A} (e : exn) : emits P (@raise A e).
Proof. intros w. exists []. cbn. now rewrite app_nil_r. Qed.

Lemma emits_lift {A} (o : outcome A) : emits P (lift o).
Proof. intros w. exists []. cbn. now rewrite app_nil_r. Qed.

Lemma emits_emit (e : event) : P e -> emits P (emit e).
Proof. intros He w. exists [e]. cbn. auto. Qed.

Lemma emits_time_time env : emits P (time_time env).
Proof. intros w. exists []. cbn. now rewrite app_nil_r. Qed.

Lemma emits_read_file path : emits P (read_file path).
Proof. intros w. exists []. cbn. now rewrite app_nil_r. Qed.

Lemma emits_write_file path d : emits P (write_file path d).
Proof. intros w. exists []. cbn. now rewrite app_nil_r. Qed.

Lemma emits_bind {A B} (c : M A) (k : A -> M B) :
  emits P c -> (forall a, emits P (k a)) -> emits P (bind c k).
Proof.
  intros Hc Hk w. unfold bind.
  destruct (Hc w) as (new1 & Ht1 & Hall1).
  destruct (c w) as [w1 [e|a]]; cbn in *.
  - now exists new1.
  - destruct (Hk a w1) as (new2 & Ht2 & Hall2).
    exists (new1 ++ new2). rewrite Ht2, Ht1, app_assoc. split; [reflexivity|].
    now apply Forall_app.
Qed.

Lemma emits_for_each {A S} (xs : list A) (body : A -> S -> M S) :
  (forall x s, emits P (body x s)) -> forall s, emits P (for_each xs body s).
Proof.
  intros Hbody. induction xs as [|x rest IH]; intros s; cbn [for_each].
  - apply emits_ret.
  - apply emits_bind; [apply Hbody | exact IH].
Qed.

End Emits.

Ltac emits_step :=
  lazymatch goal with
  | |- emits _ (bind _ _) => apply emits_bind; [|intros ?]
  | |- emits _ (ret _) => apply emits_ret
  | |- emits _ (raise _) => apply emits_raise
  | |- emits _ (lift _) => apply emits_lift
  | |- emits _ (emit _) => apply emits_emit; exact I
  | |- emits _ (time_time _) => apply emits_time_time
  | |- emits _ (read_file _) => apply emits_read_file
  | |- emits _ (write_file _ _) => apply emits_write_file
  | |- emits _ (for_each _ _ _) => apply emits_for_each; intros ? ?
  | |- emits _ (if ?b then _ else _) => destruct b
  | |- emits _ (match ?x with _ => _ end) => destruct x
  end.

Lemma compute_metrics_emits env requested ix queries gt ef k :
  emits searches_with_100 (compute_metrics env requested ix queries gt ef k).
Proof.
  unfold compute_metrics, search_loop_flatnav, search_loop_hnsw,
    call_search_single, call_knn_query.
  apply emits_bind; [|intros [lat top]; apply emits_lift].
  destruct (is_flatnav ix).
  - apply emits_for_each. intros query [lat top].
    apply emits_bind; [apply emits_time_time|intros start].
    apply emits_bind.
    + apply emits_bind; [apply emits_emit; reflexivity | intros; apply emits_ret].
    + intros. repeat emits_step.
  - apply emits_bind; [apply emits_emit; exact I|intros _].
    apply emits_for_each. intros query [lat top].
    repeat emits_step.
Qed.

Lemma train_index_emits env td dt dim size links ef it uhbl fname threads :
  emits searches_with_100
    (train_index env td dt dim size links ef it uhbl fname threads).
Proof.
  unfold train_index, create_and_train_hnsw_index, index_factory.
  repeat emits_step.
Qed.

Lemma search_step_emits env ix qs gt dt mf it nl efc ef metrics :
  emits searches_with_100 (search_step env ix qs gt dt mf it nl efc ef metrics).
Proof.
  unfold search_step, item, persist, load_store.
  apply emits_bind; [apply compute_metrics_emits|intros m].
  repeat emits_step.
Qed.

Lemma build_step_emits env td qs gt efs dt mf it uhbl fname ro bt st nl efc metrics :
  emits searches_with_100
    (build_step env td qs gt efs dt mf it uhbl fname ro bt st nl efc metrics).
Proof.
  unfold build_step, reorder, set_num_threads.
  apply emits_bind; [apply emits_emit; exact I|intros _].
  apply emits_bind; [apply train_index_emits|intros ix].
  apply emits_bind; [repeat emits_step|intros ix'].
  apply emits_bind; [destruct (is_flatnav ix'); apply emits_emit; exact I|intros _].
  apply emits_for_each. intros ef metrics'. apply search_step_emits.
Qed.

Lemma main_emits env td qs gt efc efs links dt mf it uhbl fname ro ninit bt st :
  emits searches_with_100
    (main env td qs gt efc efs links dt mf it uhbl fname ro ninit bt st).
Proof.
  unfold main.
  apply emits_bind; [|intros; apply emits_ret].
  apply emits_for_each. intros nl metrics.
  apply emits_for_each. intros ef metrics'. apply build_step_emits.
Qed.

(** C10. The [num_initializations] a caller supplies changes nothing: a
    sweep run with one value is the sweep run with any other, and every
    [search_single] call that an experiment issues carries the constant
    100. *)
Theorem num_initializations_never_forwarded
    env args train_dataset queries gtruth ef_cons_params ef_search_params
    num_node_links distance_type metrics_file index_type use_hnsw_base_layer
    hnsw_base_layer_filename reordering_strategies
    num_initializations num_initializations'
    num_build_threads num_search_threads w :
  main env train_dataset queries gtruth ef_cons_params ef_search_params
    num_node_links distance_type metrics_file index_type use_hnsw_base_layer
    hnsw_base_layer_filename reordering_strategies num_initializations
    num_build_threads num_search_threads w
  = main env train_dataset queries gtruth ef_cons_params ef_search_params
      num_node_links distance_type metrics_file index_type use_hnsw_base_layer
      hnsw_base_layer_filename reordering_strategies num_initializations'
      num_build_threads num_search_threads w
  /\ exists new,
       trace (fst (run_experiment env args train_dataset queries gtruth w))
       = trace w ++ new
       /\ Forall searches_with_100 new.
Proof.
  split; [reflexivity|].
  revert w. change (emits searches_with_100
                      (run_experiment env args train_dataset queries gtruth)).
  unfold run_experiment.
  apply emits_bind; [repeat emits_step|intros _].
  apply main_emits.
Qed.

(** An experiment on the flatnav backend that is given
    [num_initializations = [7]]: its searches are issued with 100. *)
Lemma run_experiment_sample_searches :
  let args := {| arg_index_type := "FlatNav"; arg_use_hnsw_base_layer := false;
                 arg_hnsw_base_layer_filename := None;
                 arg_num_node_links := [16]; arg_ef_construction := [100];
                 arg_ef_search := [50]; arg_num_initializations := Some [7];
                 arg_metric := "L2"; arg_reordering_strategies := None;
                 arg_num_build_threads := 1; arg_num_search_threads := 1;
                 arg_metrics_file := "m.json" |} in
  let w' := fst (run_experiment Sample.exact args Sample.train Sample.queries
                   Sample.gtruth Sample.start) in
  List.filter (fun e => match e with Flatnav_search_single _ _ _ _ => true
                                   | _ => false end) (trace w')
  = [Flatnav_search_single [1%Q] 50 100 100;
     Flatnav_search_single [2%Q] 50 100 100].
Proof. vm_compute. reflexivity. Qed.

(** On the hnswlib backend a supplied [num_initializations] stops the
    experiment before the sweep starts. *)
Lemma run_experiment_hnsw_rejects_num_initializations env args td qs gt w :
  lower (arg_index_type args) = "hnsw" ->
  is_Some (arg_num_initializations args) ->
  run_experiment env args td qs gt w
  = (w, Raised (ValueError "HNSW does not support num_initializations.")).
Proof.
  intros Hhnsw [n Hn]. unfold run_experiment.
  rewrite Hhnsw, Hn. reflexivity.
Qed.

(** * Further properties of the driver *)

(** ** The metrics engine: effects and errors *)

Lemma search_events_count ix queries ef k :
  length (List.filter is_search_call (search_events ix queries ef k))
  = length queries
  /\ List.filter is_building_log (search_events ix queries ef k) = [].
Proof.
  unfold search_events. destruct (is_flatnav ix); cbn [List.filter is_search_call
    is_building_log].
  - induction queries as [|q rest [IH1 IH2]]; cbn; [split; reflexivity|].
    now rewrite IH1, IH2.
  - induction queries as [|q rest [IH1 IH2]]; cbn; [split; reflexivity|].
    now rewrite IH1, IH2.
Qed.

(** X1. A scoring call issues one search per query, in the order of the
    queries, reads the clock twice per search and touches no file; this is
    so whether the scoring that follows succeeds or raises. *)
Theorem compute_metrics_effects env requested ix queries gt ef k w :
  fst (compute_metrics env requested ix queries gt ef k w)
  = {| trace := trace w ++ search_events ix queries ef k;
       files := files w;
       ticks := ticks w + 2 * length queries |}
  /\ length (List.filter is_search_call (search_events ix queries ef k))
     = length queries.
Proof.
  split; [now rewrite compute_metrics_run|]. apply search_events_count.
Qed.

(** X2. If some query is answered with a number of ids other than [k],
    the scoring call raises the [RuntimeError], whatever metrics were
    asked for. *)
Theorem compute_metrics_result_count_mismatch
    env requested ix queries gt ef k w :
  forallb (fun indices => Z.of_nat (length indices) =? k)
    (answers env ix queries ef k) = false ->
  snd (compute_metrics env requested ix queries gt ef k w)
  = Raised (RuntimeError "Not all queries returned the same number of results.").
Proof.
  intros Hbad. rewrite compute_metrics_run. cbn [snd].
  unfold score. now rewrite Hbad.
Qed.

Lemma compute_metrics_result_count_mismatch_sample :
  snd (compute_metrics Faulty.one_short ["recall"] Sample.flat_index
         Sample.queries Sample.small_gtruth 50 4 Sample.start)
  = Raised (RuntimeError "Not all queries returned the same number of results.").
Proof.
  apply compute_metrics_result_count_mismatch. reflexivity.
Defined.

(** X3. Without queries the scoring call raises a [ValueError]: there is
    nothing to stack. *)
Theorem compute_metrics_no_queries env requested ix gt ef k w :
  snd (compute_metrics env requested ix [] gt ef k w)
  = Raised (ValueError "need at least one array to stack").
Proof.
  rewrite compute_metrics_run. cbn [snd].
  unfold answers. destruct (is_flatnav ix); reflexivity.
Qed.

(** The recall loop on a ground truth that runs out of rows. *)
Lemma recall_loop_missing_row (gt : list (list Z)) (k : Z) :
  0 < k ->
  forall rows idx acc,
    Forall (fun row => Z.of_nat (length row) = k) rows ->
    (idx <= length gt < idx + length rows)%nat ->
    recall_loop (map list_to_set gt) k idx rows acc = Raised IndexError.
Proof.
  intros Hk rows.
  induction rows as [|row rest IH]; intros idx acc Hrows Hlen.
  - cbn in Hlen. lia.
  - apply Forall_cons in Hrows as [Hrow Hrest]. cbn [length] in Hlen.
    destruct row as [|id row']; [cbn in Hrow; lia|].
    cbn [recall_loop query_hits].
    change (map list_to_set gt) with ((list_to_set <$> gt) : list (gset Z)).
    rewrite list_lookup_fmap.
    destruct (gt !! idx) as [truth|] eqn:Htruth; cbn [fmap option_fmap option_map].
    + unfold truediv. rewrite Qeq_bool_inject_Z_nonzero by lia.
      apply IH; [exact Hrest|].
      apply lookup_lt_Some in Htruth. lia.
    + reflexivity.
Qed.

(** X4. If the ground truth has fewer rows than there are queries, the
    scoring call raises an [IndexError] (when every query got its [k > 0]
    ids and the total time allows the [qps] division). *)
Theorem compute_metrics_missing_ground_truth
    env requested ix queries gt ef k w :
  0 < k ->
  forallb (fun indices => Z.of_nat (length indices) =? k)
    (answers env ix queries ef k) = true ->
  (length gt < length queries)%nat ->
  (bool_decide ("qps" ∈ requested) = true ->
   Qeq_bool (qsum (durations env (ticks w) (length queries))) 0 = false) ->
  snd (compute_metrics env requested ix queries gt ef k w) = Raised IndexError.
Proof.
  intros Hk Hall Hgt Hqps. rewrite compute_metrics_run. cbn [snd].
  assert (Hrows : Forall (fun row => Z.of_nat (length row) = k)
                    (answers env ix queries ef k)).
  { apply Forall_forall. intros row Hrow.
    rewrite forallb_forall in Hall. apply Z.eqb_eq, Hall.
    now apply list_elem_of_In. }
  pose proof (recall_loop_missing_row gt k Hk (answers env ix queries ef k)
                0%nat 0%Q Hrows) as Hloop.
  rewrite length_answers in Hloop. specialize (Hloop ltac:(lia)).
  unfold score. rewrite Hall. cbn [negb].
  destruct (answers env ix queries ef k) as [|row rest] eqn:Hans.
  { apply (f_equal length) in Hans. rewrite length_answers in Hans.
    cbn in Hans. lia. }
  cbn [Numpy.stack]. rewrite Hloop.
  unfold when_requested, truediv.
  destruct (bool_decide ("qps" ∈ requested)).
  - rewrite (Hqps eq_refl).
    repeat (destruct (bool_decide (_ ∈ requested))); reflexivity.
  - repeat (destruct (bool_decide (_ ∈ requested))); reflexivity.
Qed.

Lemma compute_metrics_missing_ground_truth_sample :
  snd (compute_metrics Sample.exact ["recall"; "qps"] Sample.flat_index
         Sample.queries Faulty.one_row 50 4 Sample.start)
  = Raised IndexError.
Proof.
  apply compute_metrics_missing_ground_truth;
    [ lia | reflexivity | simpl; lia | intros _; reflexivity ].
Defined.

(** X5. The record a scoring call returns holds exactly the timing
    metrics that were asked for, in the order the source tests them,
    followed by the recall; a name that is not one of the six is
    ignored. *)
Theorem compute_metrics_keys env requested ix queries gt ef k w :
  is_raised (snd (compute_metrics env requested ix queries gt ef k w)) = false ->
  exists m,
    snd (compute_metrics env requested ix queries gt ef k w) = Returned m
    /\ Dict.keys m
       = filter (fun name => name ∈ requested) timing_names ++ ["recall"].
Proof.
  rewrite compute_metrics_run. cbn [snd].
  destruct (score _ _ _ _ _ _) as [e|m] eqn:Hscore; [discriminate|].
  intros _. exists m. split; [reflexivity|].
  destruct (score_shape _ _ _ _ _ _ _ Hscore) as (r & ->).
  unfold Dict.keys. rewrite map_app. f_equal.
  unfold timing_metrics, entry_if, timing_names, bool_decide.
  rewrite !filter_cons, filter_nil.
  repeat (destruct (decide_rel elem_of _ requested)); reflexivity.
Qed.

Lemma compute_metrics_keys_sample :
  exists m,
    snd (compute_metrics Sample.exact ["latency_p99"; "median"; "qps"]
           Sample.flat_index Sample.queries Sample.small_gtruth 50 4
           Sample.start) = Returned m
    /\ Dict.keys m
       = filter (fun name => name ∈ ["latency_p99"; "median"; "qps"])
           timing_names ++ ["recall"].
Proof.
  apply compute_metrics_keys. reflexivity.
Defined.

(** *** Recall and the order of ids *)

Lemma durations_same_clock env env' :
  (forall t, clock env t = clock env' t) ->
  forall n t, durations env t n = durations env' t n.
Proof.
  intros Hclock n. induction n as [|n IH]; intros t; cbn; [reflexivity|].
  now rewrite !Hclock, IH.
Qed.

Lemma query_hits_perm gts idx (row row' : list Z) :
  row ≡ₚ row' -> query_hits gts idx row = query_hits gts idx row'.
Proof.
  intros Hp. unfold query_hits.
  destruct row as [|x r], row' as [|x' r'].
  - reflexivity.
  - apply Permutation_nil_l in Hp. discriminate.
  - apply Permutation_nil_r in Hp. discriminate.
  - destruct (gts !! idx) as [s|]; [|reflexivity].
    now rewrite (Permutation_length (filter_Permutation _ _ _ Hp)).
Qed.

Lemma recall_loop_perm gts k (rows rows' : list (list Z)) :
  Forall2 Permutation rows rows' ->
  forall idx acc,
    recall_loop gts k idx rows acc = recall_loop gts k idx rows' acc.
Proof.
  induction 1 as [|row row' rest rest' Hp _ IH]; intros idx acc.
  - reflexivity.
  - cbn [recall_loop]. rewrite (query_hits_perm gts idx row row' Hp).
    destruct (query_hits gts idx row') as [e|hits]; [reflexivity|].
    destruct (truediv _ _); [reflexivity|]. apply IH.
Qed.

Lemma ground_truth_sets_same (gt gt' : list (list Z)) :
  Forall2 (fun truth truth' => forall id, id ∈ truth <-> id ∈ truth') gt gt' ->
  (map list_to_set gt : list (gset Z)) = map list_to_set gt'.
Proof.
  induction 1 as [|truth truth' rest rest' Hsame _ IH]; [reflexivity|].
  cbn [map]. f_equal; [|exact IH].
  apply set_eq. intros id. now rewrite !elem_of_list_to_set.
Qed.

Lemma score_order_insensitive requested n gt gt' k latencies top top' :
  Forall2 Permutation top top' ->
  Forall2 (fun truth truth' => forall id, id ∈ truth <-> id ∈ truth') gt gt' ->
  score requested n gt k latencies top = score requested n gt' k latencies top'.
Proof.
  intros Htop Hgt. unfold score.
  assert (Hall : forallb (fun indices => Z.of_nat (length indices) =? k) top
                 = forallb (fun indices => Z.of_nat (length indices) =? k) top').
  { clear Hgt. induction Htop as [|row row' rest rest' Hp _ IH]; [reflexivity|].
    cbn [forallb]. now rewrite (Permutation_length Hp), IH. }
  rewrite Hall. destruct (negb _); [reflexivity|].
  rewrite (ground_truth_sets_same gt gt' Hgt).
  destruct Htop as [|row row' rest rest' Hp Hrest]; [reflexivity|].
  cbn [Numpy.stack].
  now rewrite (recall_loop_perm _ k (row :: rest) (row' :: rest'))
    by (constructor; assumption).
Qed.

(** X6. The record depends on each query's answer only up to the order of
    its ids, and on each ground-truth row only through the set of its
    ids: two backends with one clock whose answers are permutations of each
    other, scored against ground truths with the same ids per row, give
    the same result. *)
Theorem compute_metrics_order_insensitive
    env env' requested ix queries gt gt' ef k w :
  (forall t, clock env t = clock env' t) ->
  Forall2 Permutation (answers env ix queries ef k) (answers env' ix queries ef k) ->
  Forall2 (fun truth truth' => forall id, id ∈ truth <-> id ∈ truth') gt gt' ->
  snd (compute_metrics env requested ix queries gt ef k w)
  = snd (compute_metrics env' requested ix queries gt' ef k w).
Proof.
  intros Hclock Hans Hgt. rewrite !compute_metrics_run. cbn [snd].
  rewrite (durations_same_clock env env' Hclock).
  now apply score_order_insensitive.
Qed.

Lemma compute_metrics_order_insensitive_sample :
  snd (compute_metrics Sample.exact ["qps"] Sample.flat_index Sample.queries
         [[0; 1; 2; 3]; [2; 3; 4; 5]] 50 4 Sample.start)
  = snd (compute_metrics Faulty.reversed ["qps"] Sample.flat_index
           Sample.queries [[3; 3; 2; 1; 0]; [5; 4; 3; 2]] 50 4 Sample.start).
Proof.
  apply compute_metrics_order_insensitive.
  - reflexivity.
  - apply (bool_decide_unpack _). vm_compute. exact I.
  - constructor; [|constructor; [|constructor]];
      intros id; rewrite !elem_of_cons, !elem_of_nil; tauto.
Defined.

Lemma qsum_all_ones (l : list Q) :
  Forall (fun x => x == 1)%Q l -> (qsum l == inject_Z (Z.of_nat (length l)))%Q.
Proof.
  induction 1 as [|x l Hx _ IH].
  - reflexivity.
  - cbn [qsum foldr length]. change (foldr Qplus 0%Q l) with (qsum l).
    rewrite Nat2Z.inj_succ. unfold Z.succ. rewrite inject_Z_plus.
    rewrite Hx, IH. change (inject_Z 1) with 1%Q. ring.
Qed.

(** X7. When every id a search returns is one of the query's ground-truth
    ids, the recall is 1. *)
Theorem compute_metrics_exact_recall env requested ix queries gt ef k w :
  (0 < length queries)%nat ->
  0 < k ->
  forallb (fun indices => Z.of_nat (length indices) =? k)
    (answers env ix queries ef k) = true ->
  (length queries <= length gt)%nat ->
  (bool_decide ("qps" ∈ requested) = true ->
   Qeq_bool (qsum (durations env (ticks w) (length queries))) 0 = false) ->
  Forall (fun pair => pair.1 ⊆ pair.2) (zip (answers env ix queries ef k) gt) ->
  exists m r,
    snd (compute_metrics env requested ix queries gt ef k w) = Returned m
    /\ Dict.get "recall" m = Some (JNum r)
    /\ (r == 1)%Q.
Proof.
  intros Hn Hk Hall Hgt Hqps Hexact.
  destruct (score_returns requested (length queries) gt k
              (durations env (ticks w) (length queries))
              (answers env ix queries ef k) Hn (length_answers _ _ _ _ _)
              Hk Hall Hgt Hqps) as (r & Hscore & Hr).
  rewrite compute_metrics_run, Hscore. cbn [snd].
  eexists _, r. split; [reflexivity|].
  split; [apply get_recall_after_timing|].
  rewrite Hr. unfold spec_recall.
  assert (Hrows : Forall (fun row => row <> [])
                    (answers env ix queries ef k)).
  { apply Forall_forall. intros row Hrow ->.
    rewrite forallb_forall in Hall.
    apply list_elem_of_In, Hall, Z.eqb_eq in Hrow. cbn in Hrow. lia. }
  assert (Hones : Forall (fun x => x == 1)%Q
                    (zip_with spec_query_recall (answers env ix queries ef k) gt)).
  { revert Hexact Hrows. generalize (answers env ix queries ef k) as rows.
    clear. intros rows. revert gt.
    induction rows as [|row rest IH]; intros [|truth gt] Hexact Hrows;
      cbn [zip_with]; try constructor.
    - apply Forall_cons in Hexact as [Hsub _].
      apply Forall_cons in Hrows as [Hne _].
      apply spec_query_recall_full; [exact Hne|]. exact Hsub.
    - apply Forall_cons in Hexact as [_ Hexact].
      apply Forall_cons in Hrows as [_ Hrows]. now apply IH. }
  rewrite (qsum_all_ones _ Hones), length_zip_with, length_answers.
  rewrite Nat.min_l by lia.
  apply Qmult_inv_r.
  change 0%Q with (inject_Z 0). rewrite inject_Z_injective. lia.
Qed.

Lemma compute_metrics_exact_recall_sample :
  exists m r,
    snd (compute_metrics Sample.exact ["recall"] Sample.flat_index
           Sample.queries Faulty.all_true 50 4 Sample.start) = Returned m
    /\ Dict.get "recall" m = Some (JNum r)
    /\ (r == 1)%Q.
Proof.
  apply compute_metrics_exact_recall;
    [ simpl; lia | lia | reflexivity | simpl; lia | intros _; reflexivity
    | apply (bool_decide_unpack _); vm_compute; exact I ].
Defined.

(** ** The result store: read, merge, write *)

Lemma dict_get_set_eq key v (d : pydict) :
  Dict.get key (Dict.set key v d) = Some v.
Proof.
  induction d as [|[k old] rest IH]; cbn.
  - now rewrite bool_decide_eq_true_2.
  - destruct (bool_decide (k = key)) eqn:Hk; cbn; rewrite Hk; [reflexivity|exact IH].
Qed.

Lemma dict_get_set_ne key other v (d : pydict) :
  other <> key -> Dict.get other (Dict.set key v d) = Dict.get other d.
Proof.
  intros Hne. induction d as [|[k old] rest IH]; cbn.
  - rewrite bool_decide_eq_false_2 by congruence. reflexivity.
  - destruct (bool_decide (k = key)) eqn:Hk; cbn.
    + apply bool_decide_eq_true_1 in Hk as ->.
      now rewrite bool_decide_eq_false_2 by congruence.
    + destruct (bool_decide (k = other)); [reflexivity|exact IH].
Qed.

Lemma stored_same_file mf it w1 w2 :
  files w1 !! mf = files w2 !! mf -> stored mf it w1 = stored mf it w2.
Proof. intros H. unfold stored. now rewrite H. Qed.

(** On an object, [append_record] adds the record after those the backend
    has and leaves every other key as it is. *)
Lemma append_record_object index_type metrics fields records :
  match Dict.get index_type fields with
  | None => Some []
  | Some (JArr rs) => Some rs
  | Some _ => None
  end = Some records ->
  exists fields',
    append_record index_type metrics (JObj fields) = Returned (JObj fields')
    /\ Dict.get index_type fields' = Some (JArr (records ++ [JObj metrics]))
    /\ forall other, other <> index_type ->
         Dict.get other fields' = Dict.get other fields.
Proof.
  intros Hrec. unfold append_record, Dict.has.
  destruct (Dict.get index_type fields) as [v|] eqn:Hget.
  - destruct v; try discriminate. injection Hrec as ->.
    rewrite Hget. eexists. split; [reflexivity|].
    split; [apply dict_get_set_eq|].
    intros other Hne. now apply dict_get_set_ne.
  - injection Hrec as <-. rewrite dict_get_set_eq.
    eexists. split; [reflexivity|].
    split; [apply dict_get_set_eq|].
    intros other Hne. now rewrite !dict_get_set_ne.
Qed.

(** A write that returns has read its store. *)
Lemma persist_returns_readable metrics_file index_type metrics w w' :
  persist metrics_file index_type metrics w = (w', Returned tt) ->
  readable metrics_file w = true.
Proof.
  unfold persist, load_store, readable, bind, read_file.
  destruct (files w !! metrics_file) as [d|]; [|reflexivity].
  destruct (nonempty d); [|reflexivity].
  destruct (json_load d); [reflexivity|reflexivity|discriminate].
Qed.

(** A write on a store that can be read and that the backend can be
    appended to. *)
Lemma persist_appends_to_stored metrics_file index_type metrics records w :
  readable metrics_file w = true ->
  stored metrics_file index_type w = Some records ->
  exists w',
    persist metrics_file index_type metrics w = (w', Returned tt)
    /\ stored metrics_file index_type w' = Some (records ++ [JObj metrics])
    /\ (forall other, other <> index_type ->
          stored metrics_file other w' = stored metrics_file other w)
    /\ (forall path, path <> metrics_file -> files w' !! path = files w !! path).
Proof.
  unfold stored at 1, readable. intros Hreadable Hstored.
  assert (Hfresh : forall w0 : world,
    exists w',
      (let* all_metrics :=
         lift (append_record index_type metrics (JObj [(index_type, JArr [])])) in
       write_file metrics_file (Document all_metrics)) w0 = (w', Returned tt)
      /\ trace w' = trace w0
      /\ files w' = <[metrics_file :=
                        Document (JObj [(index_type, JArr [JObj metrics])])]>
                      (files w0)).
  { intros w0. rewrite append_record_to_list. eexists. repeat split. }
  assert (Hafter : forall w0 : world,
    files w0 = <[metrics_file :=
                   Document (JObj [(index_type, JArr [JObj metrics])])]> (files w) ->
    stored metrics_file index_type w0 = Some ([] ++ [JObj metrics])
    /\ (forall other, other <> index_type ->
          stored metrics_file other w0 = Some [])
    /\ (forall path, path <> metrics_file -> files w0 !! path = files w !! path)).
  { intros w0 Hw0. unfold stored. rewrite Hw0, lookup_insert_eq.
    cbn [nonempty json_load]. rewrite dict_get_head.
    split; [reflexivity|]. split.
    - intros other Hne. cbn. now rewrite bool_decide_eq_false_2 by congruence.
    - intros path Hne. now rewrite lookup_insert_ne by congruence. }
  unfold persist, load_store.
  destruct (files w !! metrics_file) as [d|] eqn:Hfile.
  2:{ injection Hstored as <-.
      destruct (Hfresh w) as (w' & Hrun & _ & Hfiles).
      exists w'. unfold bind at 1 2, read_file. rewrite Hfile. cbn [ret].
      split; [exact Hrun|].
      destruct (Hafter w' Hfiles) as (H1 & H2 & H3).
      split; [exact H1|]. split; [|exact H3].
      intros other Hne. rewrite (H2 other Hne). unfold stored.
      now rewrite Hfile. }
  destruct (nonempty d) eqn:Hsize.
  2:{ injection Hstored as <-.
      destruct (Hfresh w) as (w' & Hrun & _ & Hfiles).
      exists w'. unfold bind at 1 2, read_file. rewrite Hfile, Hsize. cbn [ret].
      split; [exact Hrun|].
      destruct (Hafter w' Hfiles) as (H1 & H2 & H3).
      split; [exact H1|]. split; [|exact H3].
      intros other Hne. rewrite (H2 other Hne). unfold stored.
      now rewrite Hfile, Hsize. }
  destruct (json_load d) as [v| |e] eqn:Hload; [|clear Hreadable|discriminate].
  2:{ injection Hstored as <-.
      destruct (Hfresh
                  {| trace := trace w ++ [Logging_error (Msg_error_reading metrics_file)];
                     files := files w; ticks := ticks w |})
        as (w' & Hrun & _ & Hfiles).
      exists w'. unfold bind at 1 2, read_file. rewrite Hfile, Hsize, Hload.
      unfold bind at 1. cbn [emit ret].
      split; [exact Hrun|].
      destruct (Hafter w' Hfiles) as (H1 & H2 & H3).
      split; [exact H1|]. split; [|exact H3].
      intros other Hne. rewrite (H2 other Hne). unfold stored.
      now rewrite Hfile, Hsize, Hload. }
  destruct v as [| | | | |fields]; try discriminate.
  destruct (append_record_object index_type metrics fields records Hstored)
    as (fields' & Happ & Hget & Hother).
  eexists. unfold bind at 1 2, read_file. rewrite Hfile, Hsize, Hload.
  cbn [ret]. unfold bind, lift. rewrite Happ. cbn [write_file].
  split; [reflexivity|]. unfold stored. cbn [files].
  rewrite lookup_insert_eq. cbn [nonempty json_load]. rewrite Hget.
  split; [reflexivity|]. split.
  - intros other Hne. rewrite (Hother other Hne), Hfile, Hsize, Hload.
    reflexivity.
  - intros path Hne. now rewrite lookup_insert_ne by congruence.
Qed.

(** X8. Read, merge, write: when the store file is absent, empty, text
    that [json.load] rejects with [JSONDecodeError], or a JSON object in
    which the backend has a list (or no entry), the write succeeds, the
    new record goes after the backend's earlier records, the records of
    every other backend stay as they are, and no other file changes. (A
    file on which reading raises another exception is not [readable]: see
    [persist_unreadable].) *)
Theorem persist_merges metrics_file index_type metrics records w :
  readable metrics_file w = true ->
  stored metrics_file index_type w = Some records ->
  exists w',
    persist metrics_file index_type metrics w = (w', Returned tt)
    /\ stored metrics_file index_type w' = Some (records ++ [JObj metrics])
    /\ (forall other, other <> index_type ->
          stored metrics_file other w' = stored metrics_file other w)
    /\ (forall path, path <> metrics_file -> files w' !! path = files w !! path).
Proof. apply persist_appends_to_stored. Qed.

(** A store file on which reading raises anything but [JSONDecodeError]
    stops the write: the exception goes through, and nothing is logged or
    written. *)
Lemma persist_unreadable metrics_file index_type metrics w :
  readable metrics_file w = false ->
  exists e, persist metrics_file index_type metrics w = (w, Raised e)
            /\ exists d, files w !! metrics_file = Some d
                         /\ json_load d = Failed e.
Proof.
  unfold readable, persist, load_store, bind, read_file.
  destruct (files w !! metrics_file) as [d|]; [|discriminate].
  destruct (nonempty d); [|discriminate].
  destruct (json_load d) as [v| |e] eqn:Hload; try discriminate.
  intros _. exists e. split; [reflexivity|]. eauto.
Qed.

Lemma persist_merges_sample :
  exists w',
    persist "m.json" "flatnav" [("recall", JNum 1)]
      {| trace := [];
         files := {[ "m.json" :=
                       Document (JObj [("hnsw", JArr [JNull]);
                                       ("flatnav", JArr [JBool true])]) ]};
         ticks := 0 |} = (w', Returned tt)
    /\ stored "m.json" "flatnav" w'
       = Some ([JBool true] ++ [JObj [("recall", JNum 1)]])
    /\ (forall other, other <> "flatnav" ->
          stored "m.json" other w'
          = stored "m.json" other
              {| trace := [];
                 files := {[ "m.json" :=
                               Document (JObj [("hnsw", JArr [JNull]);
                                               ("flatnav", JArr [JBool true])]) ]};
                 ticks := 0 |})
    /\ (forall path, path <> "m.json" ->
          files w' !! path
          = files {| trace := [];
                     files := {[ "m.json" :=
                                   Document (JObj [("hnsw", JArr [JNull]);
                                                   ("flatnav", JArr [JBool true])]) ]};
                     ticks := 0 |} !! path).
Proof.
  apply persist_merges; vm_compute; reflexivity.
Defined.

(** X9. A store file that parses to something the record cannot be added
    to (a JSON value that is no object, or an object in which the backend's
    entry is no list) makes the write raise, a [TypeError] or an
    [AttributeError]; nothing is written and nothing is logged. *)
Theorem persist_wrong_shape metrics_file index_type metrics w :
  stored metrics_file index_type w = None ->
  persist metrics_file index_type metrics w = (w, Raised TypeError)
  \/ persist metrics_file index_type metrics w = (w, Raised AttributeError).
Proof.
  unfold stored, persist, load_store, bind, read_file, lift.
  destruct (files w !! metrics_file) as [d|]; [|discriminate].
  destruct (nonempty d); [|discriminate].
  destruct (json_load d) as [v| |e]; [|discriminate|discriminate].
  cbn [ret].
  destruct v as [| | | | |fields]; try (intros _; left; reflexivity).
  unfold append_record, Dict.has.
  destruct (Dict.get index_type fields) as [v|] eqn:Hget; [|discriminate].
  rewrite Hget.
  destruct v; try discriminate; intros _; right; reflexivity.
Qed.

Lemma persist_wrong_shape_sample :
  let w := {| trace := []; files := {[ "m.json" := Document (JArr []) ]};
              ticks := 0 |} in
  persist "m.json" "flatnav" [] w = (w, Raised TypeError)
  \/ persist "m.json" "flatnav" [] w = (w, Raised AttributeError).
Proof.
  apply persist_wrong_shape. vm_compute. reflexivity.
Defined.

(** ** The sweep: what a completed run leaves in the store *)

Lemma bind_inv_returned {A B} (c : M A) (k : A -> M B) w w' b :
  bind c k w = (w', Returned b) ->
  exists w1 a, c w = (w1, Returned a) /\ k a w1 = (w', Returned b).
Proof.
  unfold bind. destruct (c w) as [w1 [e|a]]; [discriminate|]. eauto.
Qed.

(** A loop that returns keeps what each of its steps keeps. *)
Lemma for_each_keeps {A T} (I : world -> Prop) (xs : list A)
    (body : A -> T -> M T) :
  (forall x s w w' s', body x s w = (w', Returned s') -> I w -> I w') ->
  forall s w w' s',
    for_each xs body s w = (w', Returned s') -> I w -> I w'.
Proof.
  intros Hbody. induction xs as [|x rest IH]; intros s w w' s' Hrun HI.
  - cbn in Hrun. now injection Hrun as <- _.
  - cbn [for_each] in Hrun.
    apply bind_inv_returned in Hrun as (w1 & s1 & Hstep & Hrest).
    eapply IH; [exact Hrest|]. eapply Hbody; eassumption.
Qed.

(** A loop that returns has run every step: a count that each step
    raises by [c] is raised by [c] per element. *)
Lemma for_each_counts {A T} (I : nat -> world -> Prop) (c : nat) (xs : list A)
    (body : A -> T -> M T) :
  (forall x s w w' s' n, body x s w = (w', Returned s') -> I n w -> I (n + c)%nat w') ->
  forall s w w' s' n,
    for_each xs body s w = (w', Returned s') -> I n w ->
    I (n + c * length xs)%nat w'.
Proof.
  intros Hbody. induction xs as [|x rest IH]; intros s w w' s' n Hrun HI.
  - cbn in Hrun. injection Hrun as <- _. cbn [length].
    now replace (n + c * 0)%nat with n by lia.
  - cbn [for_each] in Hrun.
    apply bind_inv_returned in Hrun as (w1 & s1 & Hstep & Hrest).
    cbn [length].
    replace (n + c * S (length rest))%nat with (n + c + c * length rest)%nat by lia.
    eapply IH; [exact Hrest|]. eapply Hbody; eassumption.
Qed.

(** Building an index writes no file but the base-layer file. *)
Lemma train_index_other_files
    env td dt dim size links ef it uhbl fname threads w path :
  fname <> Some path ->
  files (fst (train_index env td dt dim size links ef it uhbl fname threads w))
    !! path = files w !! path.
Proof.
  intros Hne. unfold train_index.
  destruct (bool_decide (it = "hnsw")).
  - now rewrite create_and_train_hnsw_index_run.
  - destruct uhbl.
    + destruct (truthy fname) as [filename|] eqn:Hname; [|reflexivity].
      assert (fname = Some filename) as ->.
      { destruct fname as [[|c s]|]; cbn in Hname; congruence. }
      erewrite bind_returned by apply create_and_train_hnsw_index_run.
      unfold bind, emit, write_file, index_factory, ret. cbn.
      apply lookup_insert_ne. congruence.
    + reflexivity.
Qed.

(** An iteration of the search loop that returns has appended its record. *)
Lemma search_step_appends
    env ix queries gt dt mf it nl efc ef metrics0 w w' record records :
  search_step env ix queries gt dt mf it nl efc ef metrics0 w
  = (w', Returned record) ->
  stored mf it w = Some records ->
  stored mf it w' = Some (records ++ [JObj record])
  /\ Dict.keys record = record_keys
  /\ (forall other, other <> it -> stored mf other w' = stored mf other w).
Proof.
  intros Hstep Hstored.
  destruct (compute_metrics env all_metric_names ix queries gt ef 100 w)
    as [w1 [e|m]] eqn:Hrun.
  { unfold search_step in Hstep.
    erewrite bind_raised in Hstep by exact Hrun. discriminate. }
  destruct (search_step_scored env ix queries gt dt mf it nl efc ef metrics0
              w w1 m Hrun) as (recall & qps & latency & Heq & Hfiles & Hkeys).
  rewrite Heq in Hstep. clear Heq.
  set (w2 := {| trace := trace w1 ++ _; files := files w1; ticks := ticks w1 |})
    in Hstep.
  assert (Hsame : forall name, stored mf name w2 = stored mf name w).
  { intros name. apply stored_same_file. cbn. now rewrite Hfiles. }
  assert (Hread : readable mf w2 = true).
  { destruct (persist mf it (Dict.set "distance_type" (JStr dt) m) w2)
      as [w3 [e|[]]] eqn:Hp; [discriminate|].
    exact (persist_returns_readable _ _ _ _ _ Hp). }
  destruct (persist_appends_to_stored mf it
              (Dict.set "distance_type" (JStr dt) m) records w2 Hread)
    as (w3 & Hpersist & Happ & Hother & _); [now rewrite Hsame|].
  rewrite Hpersist in Hstep. injection Hstep as <- <-.
  split; [exact Happ|]. split; [exact Hkeys|].
  intros other Hne. now rewrite (Hother other Hne), Hsame.
Qed.

(** A build and its searches, when they return, have appended one record
    per search width. *)
Lemma build_step_appends
    env td qs gt efs dt mf it uhbl fname ro bt st nl efc metrics w w' metrics'
    records n (others : string -> option (list json)) :
  fname <> Some mf ->
  build_step env td qs gt efs dt mf it uhbl fname ro bt st nl efc metrics w
  = (w', Returned metrics') ->
  (exists new, stored mf it w = Some (records ++ new)
               /\ length new = n /\ Forall is_sweep_record new)
  /\ (forall other, other <> it -> stored mf other w = others other) ->
  (exists new, stored mf it w' = Some (records ++ new)
               /\ length new = (n + 1 * length efs)%nat
               /\ Forall is_sweep_record new)
  /\ (forall other, other <> it -> stored mf other w' = others other).
Proof.
  intros Hname Hrun Hinv. unfold build_step in Hrun.
  apply bind_inv_returned in Hrun as (w1 & [] & Hlog & Hrun).
  apply bind_inv_returned in Hrun as (w2 & ix & Htrain & Hrun).
  apply bind_inv_returned in Hrun as (w3 & ix' & Hreorder & Hrun).
  apply bind_inv_returned in Hrun as (w4 & [] & Hthreads & Hrun).
  assert (H1 : files w1 = files w).
  { unfold emit in Hlog. now injection Hlog as <-. }
  assert (H2 : files w2 !! mf = files w1 !! mf).
  { pose proof (train_index_other_files env td dt (array_dim td)
                  (Z.of_nat (length (array_rows td))) nl efc it uhbl fname bt
                  w1 mf Hname) as Hkeep.
    now rewrite Htrain in Hkeep. }
  assert (H3 : files w3 = files w2).
  { destruct ro as [strategies|].
    - destruct (negb (is_flatnav ix)); [discriminate|].
      unfold reorder, bind, emit, ret in Hreorder. now injection Hreorder as <- _.
    - unfold ret in Hreorder. now injection Hreorder as <- _. }
  assert (H4 : files w4 = files w3).
  { unfold set_num_threads, emit in Hthreads. now injection Hthreads as <-. }
  assert (Hsame : forall name, stored mf name w4 = stored mf name w).
  { intros name. apply stored_same_file. now rewrite H4, H3, H2, H1. }
  refine (for_each_counts
            (fun n w =>
               (exists new, stored mf it w = Some (records ++ new)
                            /\ length new = n /\ Forall is_sweep_record new)
               /\ (forall other, other <> it -> stored mf other w = others other))
            1 efs _ _ _ w4 w' metrics' n Hrun _).
  - clear. intros ef s w w' record n Hstep [(new & Hstored & Hlen & Hall) Hothers].
    destruct (search_step_appends _ _ _ _ _ _ _ _ _ _ _ _ _ _ _ Hstep Hstored)
      as (Happ & Hkeys & Hother).
    split.
    + exists (new ++ [JObj record]). rewrite app_assoc. split; [exact Happ|].
      split; [rewrite length_app; cbn; lia|].
      apply Forall_app. split; [exact Hall|]. constructor; [exact Hkeys|constructor].
    + intros other Hne. now rewrite (Hother other Hne), Hothers.
  - destruct Hinv as [(new & Hstored & Hlen & Hall) Hothers]. split.
    + exists new. now rewrite Hsame.
    + intros other Hne. now rewrite Hsame, Hothers.
Qed.

(** X10. A sweep that runs to its end, on a store its backend can be
    appended to, has added exactly one record per combination of node-link
    count, construction width and search width, after the records the
    backend had before; each new record has the seven keys of a sweep
    record, and the records of every other backend are as they were. (The
    base-layer file, if one is named, is another file than the store.) *)
Theorem main_adds_one_record_per_combination
    env train_dataset queries gtruth ef_cons_params ef_search_params
    num_node_links distance_type metrics_file index_type use_hnsw_base_layer
    hnsw_base_layer_filename reordering_strategies num_initializations
    num_build_threads num_search_threads w records :
  bool_decide (hnsw_base_layer_filename = Some metrics_file) = false ->
  stored metrics_file index_type w = Some records ->
  is_raised
    (snd (main env train_dataset queries gtruth ef_cons_params ef_search_params
            num_node_links distance_type metrics_file index_type
            use_hnsw_base_layer hnsw_base_layer_filename reordering_strategies
            num_initializations num_build_threads num_search_threads w))
  = false ->
  let w' :=
    fst (main env train_dataset queries gtruth ef_cons_params ef_search_params
           num_node_links distance_type metrics_file index_type
           use_hnsw_base_layer hnsw_base_layer_filename reordering_strategies
           num_initializations num_build_threads num_search_threads w) in
  (exists new,
     stored metrics_file index_type w' = Some (records ++ new)
     /\ length new
        = (length num_node_links * length ef_cons_params
           * length ef_search_params)%nat
     /\ Forall is_sweep_record new)
  /\ (forall other, other <> index_type ->
        stored metrics_file other w' = stored metrics_file other w).
Proof.
  intros Hname Hstored Hdone. apply bool_decide_eq_false_1 in Hname.
  destruct (main _ _ _ _ _ _ _ _ _ _ _ _ _ _ _ _ w) as [w' [e|[]]] eqn:Hrun;
    [discriminate|].
  cbn [fst]. unfold main in Hrun.
  apply bind_inv_returned in Hrun as (w1 & metrics1 & Hloop & Hret).
  unfold ret in Hret. injection Hret as <-.
  pose proof (for_each_counts
    (fun n w0 =>
       (exists new, stored metrics_file index_type w0 = Some (records ++ new)
                    /\ length new = n /\ Forall is_sweep_record new)
       /\ (forall other, other <> index_type ->
             stored metrics_file other w0 = stored metrics_file other w))
    (length ef_cons_params * length ef_search_params) num_node_links
    (fun node_links metrics =>
       let metrics := Dict.set "node_links" (JNum (inject_Z node_links)) metrics in
       for_each ef_cons_params
         (build_step env train_dataset queries gtruth ef_search_params
            distance_type metrics_file index_type use_hnsw_base_layer
            hnsw_base_layer_filename reordering_strategies
            num_build_threads num_search_threads node_links)
         metrics)) as Houter.
  cbn beta zeta in Houter.
  specialize (Houter ltac:(
    intros node_links s w0 w0' s' n Hinner Hinv;
    replace (n + length ef_cons_params * length ef_search_params)%nat
      with (n + (1 * length ef_search_params) * length ef_cons_params)%nat by lia;
    refine (for_each_counts _ (1 * length ef_search_params) ef_cons_params _ _
              _ w0 w0' s' n Hinner Hinv);
    intros ef_cons s0 w2 w2' s2 n2 Hbuild Hinv2;
    exact (build_step_appends _ _ _ _ _ _ _ _ _ _ _ _ _ _ _ _ _ _ _ _ _ _
             Hname Hbuild Hinv2))).
  specialize (Houter [] w w1 metrics1 0%nat Hloop).
  destruct Houter as [(new & Hnew & Hlen & Hall) Hothers].
  { split; [|reflexivity]. exists []. rewrite app_nil_r. repeat split.
    - exact Hstored.
    - constructor. }
  split; [|exact Hothers].
  exists new. split; [exact Hnew|]. split; [|exact Hall]. lia.
Qed.

Lemma main_adds_one_record_per_combination_sample :
  let w' :=
    fst (main Sample.exact Sample.train Sample.queries Sample.gtruth [100; 200]
           [50; 60; 70] [16] "l2" "m.json" "flatnav" false None None None 1 1
           Sample.corrupted) in
  (exists new,
     stored "m.json" "flatnav" w' = Some ([] ++ new)
     /\ length new = (length [16] * length [100; 200] * length [50; 60; 70])%nat
     /\ Forall is_sweep_record new)
  /\ (forall other, other <> "flatnav" ->
        stored "m.json" other w' = stored "m.json" other Sample.corrupted).
Proof.
  apply (main_adds_one_record_per_combination Sample.exact Sample.train
           Sample.queries Sample.gtruth [100; 200] [50; 60; 70] [16] "l2"
           "m.json" "flatnav" false None None None 1 1 Sample.corrupted []);
    [ reflexivity | vm_compute; reflexivity | vm_compute; reflexivity ].
Defined.

(** X11. A sweep without node-link counts, or without construction
    widths, does nothing at all: no build, no search, no write, and no
    configuration error either, whatever backend and reordering are asked
    for. *)
Theorem main_empty_sweep
    env train_dataset queries gtruth ef_cons_params ef_search_params
    num_node_links distance_type metrics_file index_type use_hnsw_base_layer
    hnsw_base_layer_filename reordering_strategies num_initializations
    num_build_threads num_search_threads w :
  num_node_links = [] \/ ef_cons_params = [] ->
  main env train_dataset queries gtruth ef_cons_params ef_search_params
    num_node_links distance_type metrics_file index_type use_hnsw_base_layer
    hnsw_base_layer_filename reordering_strategies num_initializations
    num_build_threads num_search_threads w
  = (w, Returned tt).
Proof.
  intros [-> | ->]; unfold main; [reflexivity|].
  assert (Hloop : forall metrics,
    exists metrics',
      for_each num_node_links
        (fun node_links metrics0 =>
           let metrics1 :=
             Dict.set "node_links" (JNum (inject_Z node_links)) metrics0 in
           for_each []
             (build_step env train_dataset queries gtruth ef_search_params
                distance_type metrics_file index_type use_hnsw_base_layer
                hnsw_base_layer_filename reordering_strategies
                num_build_threads num_search_threads node_links)
             metrics1)
        metrics w = (w, Returned metrics')).
  { induction num_node_links as [|nl rest IH]; intros metrics.
    - eexists. reflexivity.
    - cbn [for_each].
      destruct (IH (Dict.set "node_links" (JNum (inject_Z nl)) metrics))
        as (metrics' & Hrest).
      exists metrics'.
      erewrite bind_returned by reflexivity. exact Hrest. }
  destruct (Hloop []) as (metrics' & Hrun).
  erewrite bind_returned by exact Hrun. reflexivity.
Qed.

Lemma main_empty_sweep_sample :
  main Sample.exact Sample.train Sample.queries Sample.gtruth [] [50] [16; 32]
    "l2" "m.json" "hnsw" false None (Some ["gorder"]) None 1 1 Sample.start
  = (Sample.start, Returned tt).
Proof.
  apply main_empty_sweep. right. reflexivity.
Defined.

(** ** The backend adapter: every outcome of a build *)

(** X12. [train_index] raises in one case only, base-layer reuse asked for
    the flatnav backend without a file name, and then has issued no call.
    Otherwise it returns an index that is hnswlib's exactly when the index
    type is ["hnsw"]; the edge count the index was built with is half the
    node-link count for hnswlib, the node-link count itself for the plain
    flatnav build, and none for a flatnav index built from a base layer. *)
Theorem train_index_outcome
    env train_dataset distance_type dim dataset_size node_links ef_construction
    index_type use_hnsw_base_layer hnsw_base_layer_filename num_build_threads w :
  let hnsw := bool_decide (index_type = "hnsw") in
  let nameless :=
    negb hnsw && use_hnsw_base_layer
    && bool_decide (truthy hnsw_base_layer_filename = None) in
  match train_index env train_dataset distance_type dim dataset_size node_links
          ef_construction index_type use_hnsw_base_layer
          hnsw_base_layer_filename num_build_threads w with
  | (w', Raised e) =>
    nameless = true /\ w' = w
    /\ e = ValueError "Must provide a filename for the HNSW base layer graph."
  | (w', Returned ix) =>
    nameless = false
    /\ is_flatnav ix = negb hnsw
    /\ index_max_edges ix
       = (if hnsw then Some (node_links / 2)
          else if use_hnsw_base_layer then None else Some node_links)
  end.
Proof.
  cbn zeta. unfold train_index.
  destruct (bool_decide (index_type = "hnsw")) eqn:Hit.
  - rewrite create_and_train_hnsw_index_run. repeat split.
  - cbn [negb andb]. destruct use_hnsw_base_layer.
    + destruct (truthy hnsw_base_layer_filename) as [filename|] eqn:Hname.
      * erewrite bind_returned by apply create_and_train_hnsw_index_run.
        unfold bind, emit, write_file, index_factory, ret. cbn.
        destruct (bool_decide (distance_type = "l2")); repeat split.
      * repeat split.
    + unfold bind, emit, index_factory, time_time, ret. cbn.
      destruct (bool_decide (distance_type = "l2")); repeat split.
Qed.

(** ** The experiment: validation before the sweep *)

(** X13. An experiment on the hnswlib backend, in whatever letter case the
    index type is written, that is given [num_initializations] is refused
    before anything is built, searched or written. *)
Theorem run_experiment_refuses_num_initializations
    env args train_data queries ground_truth w :
  lower (arg_index_type args) = "hnsw" ->
  is_Some (arg_num_initializations args) ->
  run_experiment env args train_data queries ground_truth w
  = (w, Raised (ValueError "HNSW does not support num_initializations.")).
Proof.
  intros Hhnsw [n Hn]. unfold run_experiment.
  rewrite Hhnsw, Hn. reflexivity.
Qed.

Lemma run_experiment_refuses_num_initializations_sample :
  run_experiment Sample.exact
    {| arg_index_type := "HNSW"; arg_use_hnsw_base_layer := false;
       arg_hnsw_base_layer_filename := None;
       arg_num_node_links := [16]; arg_ef_construction := [100];
       arg_ef_search := [50]; arg_num_initializations := Some [7];
       arg_metric := "l2"; arg_reordering_strategies := None;
       arg_num_build_threads := 1; arg_num_search_threads := 1;
       arg_metrics_file := "m.json" |}
    Sample.train Sample.queries Sample.gtruth Sample.start
  = (Sample.start,
     Raised (ValueError "HNSW does not support num_initializations.")).
Proof.
  apply run_experiment_refuses_num_initializations;
    [ reflexivity | vm_compute; eexists; reflexivity ].
Defined.

(** ** The dataset loader *)

(** X14. A ground-truth file that is too short to hold the two header
    words cannot be loaded: reading the header raises an [IndexError]. *)
Theorem load_ground_truth_short_header (data : list byte) :
  (length data < 8)%nat ->
  GroundTruth.load_ground_truth data = Raised IndexError.
Proof.
  intros Hshort. unfold GroundTruth.load_ground_truth, GroundTruth.fromfile_u32.
  destruct (length (take 4 (drop 0 data)) =? 4)%nat eqn:H0; [|reflexivity].
  destruct (length (take 4 (drop 4 data)) =? 4)%nat eqn:H4; [|reflexivity].
  apply Nat.eqb_eq in H4. rewrite length_take, length_drop in H4. lia.
Qed.

Lemma load_ground_truth_short_header_sample :
  GroundTruth.load_ground_truth [x01; x00; x00; x00; x01; x00] = Raised IndexError.
Proof.
  apply load_ground_truth_short_header. simpl. lia.
Defined.

Section LoaderFacts.

Context {npy : Type} (np_load : Dataset.dtype -> list byte -> outcome npy).

(** X15. When one of the three paths does not exist the loader raises a
    [ValueError] that names the first missing one, in the order train,
    queries, ground truth, whatever the files that do exist hold. *)
Theorem load_benchmark_dataset_missing_path
    (fs : gmap string (list byte)) train queries gtruth chunk_size path :
  List.find (fun p => bool_decide (fs !! p = None)) [train; queries; gtruth]
  = Some path ->
  Dataset.load_benchmark_dataset np_load fs train queries gtruth chunk_size
  = Raised (ValueError ("Invalid file path: " ++ path)).
Proof.
  unfold Dataset.load_benchmark_dataset. cbn [List.find Dataset.verify_paths_exist].
  destruct (fs !! train) as [t|].
  2:{ rewrite bool_decide_eq_true_2 by reflexivity. now intros [= <-]. }
  rewrite bool_decide_eq_false_2 by discriminate.
  destruct (fs !! queries) as [q|].
  2:{ rewrite bool_decide_eq_true_2 by reflexivity. now intros [= <-]. }
  rewrite bool_decide_eq_false_2 by discriminate.
  destruct (fs !! gtruth) as [g|].
  2:{ rewrite bool_decide_eq_true_2 by reflexivity. now intros [= <-]. }
  rewrite bool_decide_eq_false_2 by discriminate. discriminate.
Qed.

(** X16. With a chunk size, a train file that is not read as [float32]
    (its name does not end in [fbin]) never loads: the mapping asked for
    is six bytes longer than the file. *)
Theorem load_benchmark_dataset_chunked_uint8
    (fs : gmap string (list byte)) train queries gtruth (c : positive) :
  forallb (fun dataset => Dataset.endswith dataset "npy")
    [train; queries; gtruth] = false ->
  Dataset.endswith train "fbin" = false ->
  is_raised
    (Dataset.load_benchmark_dataset np_load fs train queries gtruth
       (Some (Npos c))) = true.
Proof.
  intros Hraw Hu8. unfold Dataset.load_benchmark_dataset.
  destruct (Dataset.verify_paths_exist fs _); [reflexivity|].
  rewrite Hraw. unfold Dataset.dtype_of_path at 1. rewrite Hu8.
  destruct (GroundTruth.fromfile_u32 _ 0); [reflexivity|].
  destruct (GroundTruth.fromfile_u32 _ 4); [reflexivity|].
  unfold Dataset.load_train, Dataset.memmap_flat. cbn [Dataset.itemsize].
  rewrite Z.div_1_r.
  destruct (_ <? _) eqn:Hlt; [reflexivity|].
  apply Z.ltb_ge in Hlt. lia.
Qed.

(** X17. Whatever the binary loader returns has the shapes the headers
    give: the train array has the header's point count as rows (the chunk
    size, if one is given) and the header's dimension as columns, and holds
    exactly rows times columns items; the query array has one row per
    ground-truth query and as many columns as the train header says; the
    ground-truth view starts at byte 8. *)
Theorem load_benchmark_dataset_shapes
    (fs : gmap string (list byte)) train queries gtruth chunk_size
    train_array query_array gtruth_view :
  Dataset.load_benchmark_dataset np_load fs train queries gtruth chunk_size
  = Returned (Dataset.From_binary train_array query_array gtruth_view) ->
  exists num_points num_dimensions num_queries K,
    GroundTruth.fromfile_u32 (default [] (fs !! train)) 0 = Returned num_points
    /\ GroundTruth.fromfile_u32 (default [] (fs !! train)) 4
       = Returned num_dimensions
    /\ GroundTruth.fromfile_u32 (default [] (fs !! gtruth)) 0
       = Returned num_queries
    /\ GroundTruth.fromfile_u32 (default [] (fs !! gtruth)) 4 = Returned K
    /\ Dataset.a_rows train_array
       = match chunk_size with
         | Some (Npos c) => Z.pos c
         | _ => num_points
         end
    /\ Dataset.a_cols train_array = num_dimensions
    /\ Z.of_nat (length (Dataset.a_data train_array))
       = Dataset.a_rows train_array * Dataset.a_cols train_array
         * Dataset.itemsize (Dataset.a_dtype train_array)
    /\ Dataset.a_rows query_array = num_queries
    /\ Dataset.a_cols query_array = num_dimensions
    /\ Z.of_nat (length (Dataset.a_data query_array))
       = num_queries * num_dimensions
         * Dataset.itemsize (Dataset.a_dtype query_array)
    /\ GroundTruth.view_rows gtruth_view = num_queries
    /\ GroundTruth.view_cols gtruth_view = K
    /\ GroundTruth.view_offset gtruth_view = 8.
Proof.
  unfold Dataset.load_benchmark_dataset.
  destruct (Dataset.verify_paths_exist fs _); [discriminate|].
  destruct (forallb _ _).
  { destruct (np_load _ _); [discriminate|].
    destruct (np_load _ _); [discriminate|].
    destruct (np_load _ _); discriminate. }
  destruct (GroundTruth.fromfile_u32 (default [] (fs !! train)) 0)
    as [e|n] eqn:Hn; [discriminate|].
  destruct (GroundTruth.fromfile_u32 (default [] (fs !! train)) 4)
    as [e|d] eqn:Hd; [discriminate|].
  destruct (Dataset.load_train _ _ n d chunk_size) as [e|t] eqn:Ht; [discriminate|].
  unfold GroundTruth.load_ground_truth.
  destruct (GroundTruth.fromfile_u32 (default [] (fs !! gtruth)) 0)
    as [e|nq] eqn:Hnq; [discriminate|].
  destruct (GroundTruth.fromfile_u32 (default [] (fs !! gtruth)) 4)
    as [e|k] eqn:Hk; [discriminate|].
  destruct (GroundTruth.memmap _ GroundTruth.Uint32 nq k 8)
    as [e|ids] eqn:Hids; [discriminate|].
  destruct (GroundTruth.memmap _ GroundTruth.Float32 nq k _)
    as [e|dists]; [discriminate|].
  apply memmap_returned in Hids as ->.
  destruct (Dataset.fromfile _ _ 8) as [e|items]; [discriminate|].
  destruct (Dataset.reshape items _ nq d) as [e|q] eqn:Hq; [discriminate|].
  intros [= <- <- <-].
  exists n, d, nq, k. repeat (split; [reflexivity|]).
  assert (Hreshape : forall bytes dt rows cols arr,
    Dataset.reshape bytes dt rows cols = Returned arr ->
    Dataset.a_rows arr = rows /\ Dataset.a_cols arr = cols
    /\ Z.of_nat (length (Dataset.a_data arr))
       = rows * cols * Dataset.itemsize (Dataset.a_dtype arr)).
  { intros bytes dt rows cols arr. unfold Dataset.reshape.
    destruct (_ =? _) eqn:Hsize; [|discriminate].
    intros [= <-]. cbn. apply Z.eqb_eq in Hsize. auto. }
  apply Hreshape in Hq as (Hq1 & Hq2 & Hq3).
  assert (Htrain :
    Dataset.a_rows t = match chunk_size with
                       | Some (Npos c) => Z.pos c
                       | _ => n
                       end
    /\ Dataset.a_cols t = d
    /\ Z.of_nat (length (Dataset.a_data t))
       = Dataset.a_rows t * Dataset.a_cols t * Dataset.itemsize (Dataset.a_dtype t)).
  { unfold Dataset.load_train in Ht.
    destruct chunk_size as [[|c]|].
    - destruct (Dataset.fromfile _ _ 8); [discriminate|].
      apply Hreshape in Ht as (-> & -> & ->). auto.
    - destruct (Dataset.memmap_flat _ _ _ 8); [discriminate|].
      apply Hreshape in Ht as (-> & -> & ->). auto.
    - destruct (Dataset.fromfile _ _ 8); [discriminate|].
      apply Hreshape in Ht as (-> & -> & ->). auto. }
  destruct Htrain as (Ht1 & Ht2 & Ht3).
  rewrite Hq3, Hq1, Hq2. repeat split; assumption.
Qed.

(** X18. The loader never reads the header of the query file: two query
    files that differ only in their first eight bytes load alike. *)
Theorem load_benchmark_dataset_ignores_query_header
    (fs : gmap string (list byte)) train queries gtruth chunk_size
    (header header' payload : list byte) :
  forallb (fun dataset => Dataset.endswith dataset "npy")
    [train; queries; gtruth] = false ->
  queries <> train ->
  queries <> gtruth ->
  length header = 8%nat ->
  length header' = 8%nat ->
  Dataset.load_benchmark_dataset np_load (<[queries := header ++ payload]> fs)
    train queries gtruth chunk_size
  = Dataset.load_benchmark_dataset np_load (<[queries := header' ++ payload]> fs)
      train queries gtruth chunk_size.
Proof.
  intros Hraw Htrain Hgt Hlen Hlen'.
  unfold Dataset.load_benchmark_dataset. rewrite Hraw.
  cbn [Dataset.verify_paths_exist].
  rewrite !lookup_insert_eq, !(lookup_insert_ne _ queries train),
    !(lookup_insert_ne _ queries gtruth) by congruence.
  cbn [default].
  assert (Hfile : forall dt,
    Dataset.fromfile (header ++ payload) dt 8
    = Dataset.fromfile (header' ++ payload) dt 8).
  { intros dt. unfold Dataset.fromfile.
    rewrite !length_app, Hlen, Hlen'.
    change (Z.to_nat 8) with 8%nat.
    now rewrite (drop_app_length' header payload 8),
      (drop_app_length' header' payload 8) by congruence. }
  now rewrite Hfile.
Qed.

(** X19. The [npy] loader is used only when all three names end in [npy]:
    then the chunk size plays no part, and otherwise the [npy] loader
    plays none. *)
Theorem load_benchmark_dataset_dispatch
    (np_load' : Dataset.dtype -> list byte -> outcome npy)
    (fs : gmap string (list byte)) train queries gtruth chunk_size :
  if forallb (fun dataset => Dataset.endswith dataset "npy")
       [train; queries; gtruth]
  then Dataset.load_benchmark_dataset np_load fs train queries gtruth chunk_size
       = Dataset.load_benchmark_dataset np_load fs train queries gtruth None
  else Dataset.load_benchmark_dataset np_load fs train queries gtruth chunk_size
       = Dataset.load_benchmark_dataset np_load' fs train queries gtruth
           chunk_size.
Proof.
  unfold Dataset.load_benchmark_dataset.
  destruct (forallb _ _); reflexivity.
Qed.

End LoaderFacts.

Lemma load_benchmark_dataset_missing_path_sample :
  Dataset.load_benchmark_dataset LoaderSample.no_npy LoaderSample.disk
    "base.u8bin" "absent.u8bin" "missing.bin" None
  = Raised (ValueError ("Invalid file path: " ++ "absent.u8bin")).
Proof.
  apply load_benchmark_dataset_missing_path. vm_compute. reflexivity.
Defined.

Lemma load_benchmark_dataset_chunked_uint8_sample :
  is_raised
    (Dataset.load_benchmark_dataset LoaderSample.no_npy LoaderSample.disk
       "base.u8bin" "query.u8bin" "gt.bin" (Some 1%N)) = true.
Proof.
  apply load_benchmark_dataset_chunked_uint8; reflexivity.
Defined.

Lemma load_benchmark_dataset_shapes_sample :
  exists num_points num_dimensions num_queries K,
    GroundTruth.fromfile_u32 (default [] (LoaderSample.disk !! "base.u8bin")) 0
    = Returned num_points
    /\ GroundTruth.fromfile_u32 (default [] (LoaderSample.disk !! "base.u8bin")) 4
       = Returned num_dimensions
    /\ GroundTruth.fromfile_u32 (default [] (LoaderSample.disk !! "gt.bin")) 0
       = Returned num_queries
    /\ GroundTruth.fromfile_u32 (default [] (LoaderSample.disk !! "gt.bin")) 4
       = Returned K
    /\ 2 = num_points
    /\ 3 = num_dimensions
    /\ 6 = 2 * 3 * 1
    /\ 1 = num_queries
    /\ 3 = num_dimensions
    /\ 3 = num_queries * num_dimensions * 1
    /\ 1 = num_queries
    /\ 1 = K
    /\ 8 = 8.
Proof.
  exact (load_benchmark_dataset_shapes LoaderSample.no_npy LoaderSample.disk
           "base.u8bin" "query.u8bin" "gt.bin" None
           {| Dataset.a_dtype := Dataset.Uint8; Dataset.a_rows := 2;
              Dataset.a_cols := 3;
              Dataset.a_data := [x0a; x0b; x0c; x14; x15; x16] |}
           {| Dataset.a_dtype := Dataset.Uint8; Dataset.a_rows := 1;
              Dataset.a_cols := 3; Dataset.a_data := [x01; x02; x03] |}
           {| GroundTruth.view_dtype := GroundTruth.Uint32;
              GroundTruth.view_offset := 8;
              GroundTruth.view_rows := 1; GroundTruth.view_cols := 1 |}
           eq_refl).
Defined.

Lemma load_benchmark_dataset_ignores_query_header_sample :
  Dataset.load_benchmark_dataset LoaderSample.no_npy
    (<["query.u8bin" := [x09; x00; x00; x00; x09; x00; x00; x00]
                        ++ [x01; x02; x03]]> LoaderSample.disk)
    "base.u8bin" "query.u8bin" "gt.bin" None
  = Dataset.load_benchmark_dataset LoaderSample.no_npy
      (<["query.u8bin" := [x01; x00; x00; x00; x03; x00; x00; x00]
                          ++ [x01; x02; x03]]> LoaderSample.disk)
      "base.u8bin" "query.u8bin" "gt.bin" None.
Proof.
  apply load_benchmark_dataset_ignores_query_header;
    [ reflexivity | discriminate | discriminate | reflexivity | reflexivity ].
Defined.

(** ** The sweep: how many builds and searches a completed run issues *)










(** ** The dataset loader: what the arrays hold *)

Lemma take_own_length {A} (n : nat) (l : list A) :
  take (length (take n l)) l = take n l.
Proof.
  rewrite length_take. destruct (Nat.le_ge_cases n (length l)) as [Hle|Hge].
  - now rewrite Nat.min_l.
  - rewrite Nat.min_r by exact Hge. now rewrite !take_ge by lia.
Qed.

Lemma take_take_own_length {A} (n m : nat) (l : list A) :
  take (length (take n (take m l))) l = take n (take m l).
Proof. rewrite take_take. apply take_own_length. Qed.

Lemma reshape_data bytes dt rows cols arr :
  Dataset.reshape bytes dt rows cols = Returned arr ->
  Dataset.a_data arr = bytes.
Proof.
  unfold Dataset.reshape. destruct (_ =? _); [|discriminate].
  now intros [= <-].
Qed.

(** X21. The arrays the binary loader returns hold the bytes of their
    files that follow the 8-byte header, from the first one on: the whole
    payload, or in chunked mode the rows at its start. *)
Theorem load_benchmark_dataset_content
    {npy : Type} (np_load : Dataset.dtype -> list byte -> outcome npy)
    (fs : gmap string (list byte)) train queries gtruth chunk_size
    train_array query_array gtruth_view :
  Dataset.load_benchmark_dataset np_load fs train queries gtruth chunk_size
  = Returned (Dataset.From_binary train_array query_array gtruth_view) ->
  Dataset.a_data train_array
  = take (length (Dataset.a_data train_array))
      (drop 8 (default [] (fs !! train)))
  /\ Dataset.a_data query_array
     = take (length (Dataset.a_data query_array))
         (drop 8 (default [] (fs !! queries))).
Proof.
  unfold Dataset.load_benchmark_dataset.
  destruct (Dataset.verify_paths_exist fs _); [discriminate|].
  destruct (forallb _ _).
  { destruct (np_load _ _); [discriminate|].
    destruct (np_load _ _); [discriminate|].
    destruct (np_load _ _); discriminate. }
  destruct (GroundTruth.fromfile_u32 _ 0) as [e|n]; [discriminate|].
  destruct (GroundTruth.fromfile_u32 _ 4) as [e|d]; [discriminate|].
  destruct (Dataset.load_train _ _ n d chunk_size) as [e|t] eqn:Ht; [discriminate|].
  destruct (GroundTruth.load_ground_truth _) as [e|[[[ids dists] nq] k]];
    [discriminate|].
  destruct (Dataset.fromfile _ _ 8) as [e|items] eqn:Hitems; [discriminate|].
  destruct (Dataset.reshape items _ nq d) as [e|q] eqn:Hq; [discriminate|].
  intros [= <- <- <-].
  assert (Hfromfile : forall data dt bytes,
    Dataset.fromfile data dt 8 = Returned bytes ->
    bytes = take (length bytes) (drop 8 data)).
  { intros data dt bytes. unfold Dataset.fromfile.
    destruct (_ <? 0); [discriminate|]. intros [= <-].
    change (Z.to_nat 8) with 8%nat. symmetry. apply take_own_length. }
  split.
  - unfold Dataset.load_train in Ht.
    destruct chunk_size as [[|c]|].
    + destruct (Dataset.fromfile _ _ 8) as [e|bytes] eqn:Hb; [discriminate|].
      apply reshape_data in Ht as ->. now apply Hfromfile in Hb.
    + unfold Dataset.memmap_flat in Ht.
      destruct (_ <? _); [discriminate|].
      apply reshape_data in Ht as ->.
      change (Z.to_nat 8) with 8%nat. symmetry. apply take_take_own_length.
    + destruct (Dataset.fromfile _ _ 8) as [e|bytes] eqn:Hb; [discriminate|].
      apply reshape_data in Ht as ->. now apply Hfromfile in Hb.
  - apply reshape_data in Hq as ->. now apply Hfromfile in Hitems.
Qed.

Lemma load_benchmark_dataset_content_sample :
  [x0a; x0b; x0c; x14; x15; x16]
  = take 6 (drop 8 (default [] (LoaderSample.disk !! "base.u8bin")))
  /\ [x01; x02; x03]
     = take 3 (drop 8 (default [] (LoaderSample.disk !! "query.u8bin"))).
Proof.
  exact (load_benchmark_dataset_content LoaderSample.no_npy LoaderSample.disk
           "base.u8bin" "query.u8bin" "gt.bin" None
           {| Dataset.a_dtype := Dataset.Uint8; Dataset.a_rows := 2;
              Dataset.a_cols := 3;
              Dataset.a_data := [x0a; x0b; x0c; x14; x15; x16] |}
           {| Dataset.a_dtype := Dataset.Uint8; Dataset.a_rows := 1;
              Dataset.a_cols := 3; Dataset.a_data := [x01; x02; x03] |}
           {| GroundTruth.view_dtype := GroundTruth.Uint32;
              GroundTruth.view_offset := 8;
              GroundTruth.view_rows := 1; GroundTruth.view_cols := 1 |}
           eq_refl).
Defined.

(** A chunked load of a [float32] file with two one-dimensional points:
    the first point only. *)
Lemma load_benchmark_dataset_chunk_sample :
  Dataset.load_benchmark_dataset LoaderSample.no_npy
    (<["base.fbin" := [x02; x00; x00; x00;  x01; x00; x00; x00;
                       x00; x00; x80; x3f;  x00; x00; x00; x40]]>
       (<["query.fbin" := [x00; x00; x00; x00;  x00; x00; x00; x00;
                           x00; x00; x80; x3f]]> LoaderSample.disk))
    "base.fbin" "query.fbin" "gt.bin" (Some 1%N)
  = Returned
      (Dataset.From_binary
         {| Dataset.a_dtype := Dataset.Float32; Dataset.a_rows := 1;
            Dataset.a_cols := 1; Dataset.a_data := [x00; x00; x80; x3f] |}
         {| Dataset.a_dtype := Dataset.Float32; Dataset.a_rows := 1;
            Dataset.a_cols := 1; Dataset.a_data := [x00; x00; x80; x3f] |}
         {| GroundTruth.view_dtype := GroundTruth.Uint32;
            GroundTruth.view_offset := 8;
            GroundTruth.view_rows := 1; GroundTruth.view_cols := 1 |}).
Proof. vm_compute. reflexivity. Qed.
